(** * fpv_energy_scan.py: a shallow embedding of the scan / confirm loop

    Python floats are modelled as rationals [Q] (NaN and infinities are
    outside the model); a text ([str]) as the UTF-8 encoding of its
    characters in a [String.string], the classifier's output being decoded
    as UTF-8.  Library calls whose
    behaviour is not this repository's code ([json.loads], [float] on a
    string, the SDR pipeline, the subprocess, the ZMQ sockets) are inputs:
    section variables or an environment record of outcomes.  Printed lines
    are recorded as structured log events rather than formatted text. *)

From Stdlib Require Import String Ascii List ZArith QArith Bool Lia.
Import ListNotations.
Open Scope string_scope.

(** ** Constants (lines 36-90) *)

Definition RACE_BANDS_ALL_MHZ : list Z :=
  [ (* A *) 5865; 5845; 5825; 5805; 5785; 5765; 5745; 5725;
    (* B *) 5733; 5752; 5771; 5790; 5809; 5828; 5847; 5866;
    (* E *) 5705; 5685; 5665; 5645; 5885; 5905; 5925; 5945;
    (* F *) 5740; 5760; 5780; 5800; 5820; 5840; 5860; 5880;
    (* R *) 5658; 5695; 5732; 5769; 5806; 5843; 5880; 5917;
    (* L *) 5333; 5373; 5413; 5453; 5493; 5533; 5573; 5613;
    (* X *) 4990; 5020; 5050; 5080; 5110; 5140; 5170; 5200 ]%Z.

Definition EXTRA_59_MHZ : list Z := [5935; 5940; 5943; 5950]%Z.

Fixpoint insert_Z (x : Z) (l : list Z) : list Z :=
  match l with
  | [] => [x]
  | y :: l' => if (x <=? y)%Z then x :: l else y :: insert_Z x l'
  end.

Definition sort_Z (l : list Z) : list Z := fold_right insert_Z [] l.

(** [sorted(set(l))] *)
Definition sorted_set (l : list Z) : list Z :=
  sort_Z (nodup Z.eq_dec l).

Definition ALL_CENTERS_MHZ : list Z :=
  sorted_set (RACE_BANDS_ALL_MHZ ++ EXTRA_59_MHZ).

Definition THRESHOLD_DB : Q := -90.
Definition MIN_BW_HZ : Q := 4000000.
Definition SETTLE_S : Q := 12 # 100.
Definition DWELL_S : Q := 4 # 10.
Definition WARMUP_SWEEPS : nat := 1.
Definition AUTO_THRESHOLD : bool := false.
Definition THRESHOLD_OFFSET_DB : Q := 6.
Definition SUSCLI_BIN : string := "suscli".
Definition CONFIRM_SECONDS : Q := 5.
Definition COOLDOWN_S : Q := 3.
Definition REOPEN_RETRIES : nat := 5.
Definition REOPEN_DELAY_S : Q := 2.

(** The magnitude from which a number rounds to an infinite double:
    halfway between the largest double, 2^1024 - 2^971, and 2^1024. *)
Definition FLOAT_OVERFLOW : Q := inject_Z (2 ^ 1024 - 2 ^ 970)%Z.

Definition overflows (q : Q) : bool :=
  (Qle_bool FLOAT_OVERFLOW q || Qle_bool q (- FLOAT_OVERFLOW))%bool.

(** [mhz * 1e6] *)
Definition mhz_to_hz (mhz : Z) : Q := inject_Z (mhz * 1000000).

(** ** Python values and exceptions *)

Set Warnings "-register-all".

(** A decoded JSON value ([json.loads] result).  [JNum] holds an int or a
    finite float; texts that decode to NaN or an infinity are outside the
    model, like every other NaN or infinity. *)
Inductive JValue : Type :=
| JNull
| JBool (b : bool)
| JNum (q : Q)
| JStr (s : string)
| JArr (l : list JValue)
| JObj (kvs : list (string * JValue)).

Inductive exn : Type :=
| RuntimeError (msg : string)
| HwError            (* any other exception raised by the SDR pipeline *)
| ValueError
| TypeError
| AttributeError
| OverflowError.

Inductive result (A : Type) : Type :=
| Ok (a : A)
| Exc (e : exn).
Arguments Ok {A} a.
Arguments Exc {A} e.

(** [dict.get(key, default)] on a decoded value: a JSON object becomes a
    dict in which the last binding of a duplicated key wins; anything else
    has no [get] method. *)
Fixpoint assoc_last (k : string) (kvs : list (string * JValue))
  : option JValue :=
  match kvs with
  | [] => None
  | (k', v) :: rest =>
      match assoc_last k rest with
      | Some w => Some w
      | None => if String.eqb k k' then Some v else None
      end
  end.

Definition py_get (d : JValue) (k : string) (dflt : JValue) : result JValue :=
  match d with
  | JObj kvs =>
      match assoc_last k kvs with Some v => Ok v | None => Ok dflt end
  | _ => Exc AttributeError
  end.

(** [isinstance(x, (int, float))]: bool is a subclass of int. *)
Definition py_is_number (v : JValue) : bool :=
  match v with JNum _ | JBool _ => true | _ => false end.

(** [max(a, b)]: the first argument unless the second is strictly larger. *)
Definition Qlt_bool (a b : Q) : bool := negb (Qle_bool b a).

Definition py_max (a b : Q) : Q := if Qlt_bool a b then b else a.

(** [str.startswith(p)] *)
Definition startswith (p s : string) : bool := String.prefix p s.

(** [needle in hay] *)
Fixpoint py_contains (needle hay : string) : bool :=
  String.prefix needle hay ||
  match hay with
  | EmptyString => false
  | String _ h => py_contains needle h
  end.

(** [str.splitlines()] on the UTF-8 encoding of a text: the one-byte line
    boundaries \n, \r, \r\n, \v, \f, \x1c, \x1d, \x1e, and the
    encodings C2 85 of \x85, E2 80 A8 of \u2028 and E2 80 A9 of \u2029.
    In UTF-8 these byte sequences only ever encode those characters. *)
Definition is_line_break (c : ascii) : bool :=
  existsb (Nat.eqb (nat_of_ascii c)) [10; 11; 12; 13; 28; 29; 30]%nat.

Definition byte_is (n : nat) (c : ascii) : bool := Nat.eqb (nat_of_ascii c) n.

Fixpoint string_of_rev (cs : list ascii) (acc : string) : string :=
  match cs with
  | [] => acc
  | c :: cs' => string_of_rev cs' (String c acc)
  end.

Fixpoint splitlines_aux (s : string) (cur : list ascii) : list string :=
  match s with
  | EmptyString =>
      match cur with [] => [] | _ => [string_of_rev cur EmptyString] end
  | String c rest =>
      if is_line_break c then
        let rest' :=
          match rest with
          | String d r =>
              if (Ascii.eqb c "013"%char && Ascii.eqb d "010"%char)%bool
              then r else rest
          | EmptyString => rest
          end in
        string_of_rev cur EmptyString :: splitlines_aux rest' []
      else
        match rest with
        | String d r =>
            if (byte_is 194 c && byte_is 133 d)%bool then
              string_of_rev cur EmptyString :: splitlines_aux r []
            else
              match r with
              | String e r' =>
                  if (byte_is 226 c && byte_is 128 d &&
                      (byte_is 168 e || byte_is 169 e))%bool then
                    string_of_rev cur EmptyString :: splitlines_aux r' []
                  else splitlines_aux rest (c :: cur)
              | EmptyString => splitlines_aux rest (c :: cur)
              end
        | EmptyString => splitlines_aux rest (c :: cur)
        end
  end.

Definition py_splitlines (s : string) : list string := splitlines_aux s [].

(** ** statistics.median *)

Fixpoint insert_Q (x : Q) (l : list Q) : list Q :=
  match l with
  | [] => [x]
  | y :: l' => if Qle_bool x y then x :: l else y :: insert_Q x l'
  end.

Definition sort_Q (l : list Q) : list Q := fold_right insert_Q [] l.

(** [statistics.median(data)]; [None] is [StatisticsError] (empty data). *)
Definition py_median (data : list Q) : option Q :=
  let d := sort_Q data in
  let n := length d in
  match n with
  | O%nat => None
  | _ =>
      if Nat.odd n then Some (nth (n / 2)%nat d 0)
      else
        let i := (n / 2)%nat in
        Some ((nth (i - 1)%nat d 0 + nth i d 0) / 2)
  end.

(** ** Alerts (build_alert_messages, lines 211-264)

    The "Basic ID" part carries [freq_mhz]; the id string is
    [f"fpv-alert-{freq_mhz:.3f}MHz"] and the description "FPV Signal".
    The location part has height_agl, speed and vert_speed fixed to 0.0. *)

Record SignalInfo := mkSignalInfo {
  si_source : string;
  si_center_hz : Q;
  si_bandwidth_hz : Q;
  si_pal_conf : Q;
  si_ntsc_conf : Q
}.

Inductive AlertPart : Type :=
| BasicId (freq_mhz : Q)
| LocationVector (latitude longitude geodetic_altitude : Q)
| SelfId (text : string)
| FrequencyMessage (frequency : Q)
| SignalInfoMsg (si : SignalInfo).

Definition build_alert_messages (gps : option (Q * Q * Q))
    (center_hz bandwidth_hz pal ntsc : Q) (source : string)
  : list AlertPart :=
  [BasicId (center_hz / 1000000)] ++
  match gps with
  | Some (lat, lon, alt) => [LocationVector lat lon alt]
  | None => []
  end ++
  [SelfId ("FPV alert (" ++ source ++ ")");
   FrequencyMessage center_hz;
   SignalInfoMsg (mkSignalInfo source center_hz bandwidth_hz pal ntsc)].

(** ** Observable events and printed lines *)

Inductive log_line : Type :=
| LogWarnDisabled (reason : string)          (* line 100 *)
| LogOpenFail (attempt : nat)                (* line 349 *)
| LogWarmup (threshold : Q)                  (* line 454, debug *)
| LogSignals (mhz : Z) (signals : list (Q * Q))  (* line 483 *)
| LogNone (mhz : Z)                          (* line 518 *)
| LogConfirmSkipped (hz : Q)                 (* line 496 *)
| LogConfirm (hz pal ntsc : Q)               (* line 500 *)
| LogDebugConfirm (hz bw pal ntsc : Q).      (* line 506, debug *)

Inductive event : Type :=
| EConstruct (threshold : Q)  (* InspectorScan(...) built: the source holds the radio *)
| EStart                      (* tb.start() succeeded *)
| EStartFail                  (* tb.start() raised *)
| EStop                       (* tb.stop(); tb.wait() *)
| ETune (hz : Q)              (* tb.set_center(hz) *)
| ESleep (secs : Q)
| EConfirmRun (hz : Q)        (* subprocess.run([suscli, fpvdet, ...]) called *)
| EConfirmDone                (* subprocess.run returned or raised *)
| EPublish (alert : list AlertPart)
| ELog (l : log_line).

(** ** The environment: outcomes of the external collaborators *)

Inductive StartOutcome : Type := StartOk | StartRuntimeError | StartError.

(** Constructing [InspectorScan] either raises or yields a pipeline whose
    [start()] has the given outcome. *)
Inductive OpenOutcome : Type :=
| OConstructError
| OConstructed (s : StartOutcome).

Inductive ProcOutcome : Type :=
| PNotFound                                   (* FileNotFoundError *)
| PTimeout (stdout : string)                  (* TimeoutExpired, partial stdout *)
| PExited (returncode : Z) (stdout stderr : string).

Inductive RecvOutcome : Type :=
| RAgain            (* zmq.Again *)
| RFail             (* any other exception from recv_string *)
| RMsg (s : string).

Record Env := mkEnv {
  env_open : nat -> OpenOutcome;            (* k-th pipeline construction *)
  env_spectrum : nat -> list Q;             (* k-th probe.level() *)
  env_map : nat -> option (list (Q * Q));   (* k-th get_latest_map() *)
  env_proc : nat -> ProcOutcome;            (* k-th subprocess.run *)
  env_recv : nat -> RecvOutcome;            (* k-th monitor recv *)
  env_mon_sub : bool                        (* setup_monitor_sub succeeded *)
}.

(** ** Process state

    The two module globals, main's local [tb] (whether it refers to a
    pipeline; read by the [finally] clause), the event trace and how many
    outcomes of each kind have been consumed. *)

Record St := mkSt {
  confirm_disabled_reason : option string;   (* _confirm_disabled_reason *)
  last_sensor_gps : option (Q * Q * Q);      (* _last_sensor_gps *)
  main_tb : bool;
  trace : list event;
  n_open : nat;
  n_spec : nat;
  n_map : nat;
  n_proc : nat;
  n_recv : nat
}.

Definition init_st : St := mkSt None None false [] 0 0 0 0 0.

Definition set_trace (t : list event) (s : St) : St :=
  mkSt (confirm_disabled_reason s) (last_sensor_gps s) (main_tb s) t
       (n_open s) (n_spec s) (n_map s) (n_proc s) (n_recv s).
Definition set_reason_st (r : string) (s : St) : St :=
  mkSt (Some r) (last_sensor_gps s) (main_tb s) (trace s)
       (n_open s) (n_spec s) (n_map s) (n_proc s) (n_recv s).
Definition set_gps_st (g : Q * Q * Q) (s : St) : St :=
  mkSt (confirm_disabled_reason s) (Some g) (main_tb s) (trace s)
       (n_open s) (n_spec s) (n_map s) (n_proc s) (n_recv s).
Definition set_tb_st (b : bool) (s : St) : St :=
  mkSt (confirm_disabled_reason s) (last_sensor_gps s) b (trace s)
       (n_open s) (n_spec s) (n_map s) (n_proc s) (n_recv s).
Definition bump_open (s : St) : St :=
  mkSt (confirm_disabled_reason s) (last_sensor_gps s) (main_tb s) (trace s)
       (S (n_open s)) (n_spec s) (n_map s) (n_proc s) (n_recv s).
Definition bump_spec (s : St) : St :=
  mkSt (confirm_disabled_reason s) (last_sensor_gps s) (main_tb s) (trace s)
       (n_open s) (S (n_spec s)) (n_map s) (n_proc s) (n_recv s).
Definition bump_map (s : St) : St :=
  mkSt (confirm_disabled_reason s) (last_sensor_gps s) (main_tb s) (trace s)
       (n_open s) (n_spec s) (S (n_map s)) (n_proc s) (n_recv s).
Definition bump_proc (s : St) : St :=
  mkSt (confirm_disabled_reason s) (last_sensor_gps s) (main_tb s) (trace s)
       (n_open s) (n_spec s) (n_map s) (S (n_proc s)) (n_recv s).
Definition bump_recv (s : St) : St :=
  mkSt (confirm_disabled_reason s) (last_sensor_gps s) (main_tb s) (trace s)
       (n_open s) (n_spec s) (n_map s) (n_proc s) (S (n_recv s)).

(** ** A state and exception monad *)

Definition M (A : Type) : Type := St -> result A * St.

Definition ret {A} (a : A) : M A := fun s => (Ok a, s).
Definition raise {A} (e : exn) : M A := fun s => (Exc e, s).
Definition lift {A} (r : result A) : M A := fun s => (r, s).

Definition bind {A B} (m : M A) (k : A -> M B) : M B :=
  fun s =>
    match m s with
    | (Ok a, s') => k a s'
    | (Exc e, s') => (Exc e, s')
    end.

Notation "x <- m ;; k" := (bind m (fun x => k))
  (at level 61, m at next level, right associativity).
Notation "m ;; k" := (bind m (fun _ => k))
  (at level 61, right associativity).

(** [try: m except e: h(e)] *)
Definition try_catch {A} (m : M A) (h : exn -> M A) : M A :=
  fun s =>
    match m s with
    | (Ok a, s') => (Ok a, s')
    | (Exc e, s') => h e s'
    end.

(** [try: m finally: f] *)
Definition try_finally {A} (m : M A) (f : M unit) : M A :=
  fun s =>
    let (r, s') := m s in
    match f s' with
    | (Ok _, s'') => (r, s'')
    | (Exc e, s'') => (Exc e, s'')
    end.

Definition emit (e : event) : M unit :=
  fun s => (Ok tt, set_trace (trace s ++ [e]) s).

Definition sleep (secs : Q) : M unit := emit (ESleep secs).

Definition get_reason : M (option string) :=
  fun s => (Ok (confirm_disabled_reason s), s).
Definition set_reason (r : string) : M unit :=
  fun s => (Ok tt, set_reason_st r s).
Definition get_gps : M (option (Q * Q * Q)) :=
  fun s => (Ok (last_sensor_gps s), s).
Definition set_gps (g : Q * Q * Q) : M unit :=
  fun s => (Ok tt, set_gps_st g s).
Definition get_tb : M bool := fun s => (Ok (main_tb s), s).
Definition set_tb (b : bool) : M unit := fun s => (Ok tt, set_tb_st b s).

Definition newline : string := String (ascii_of_nat 10) EmptyString.

Definition rbind {A B} (r : result A) (k : A -> result B) : result B :=
  match r with Ok a => k a | Exc e => Exc e end.

(** ** The program *)

Section Program.

(** [json.loads] ([None] is [JSONDecodeError]) and [float] applied to a
    [str] ([None] is [ValueError]) are the library's. *)
Variable json_loads : string -> option JValue.
Variable float_of_str : string -> option Q.
Variable env : Env.

(** Outcomes of the collaborators, consumed in order. *)
Definition next_open : M OpenOutcome :=
  fun s => (Ok (env_open env (n_open s)), bump_open s).
Definition next_spectrum : M (list Q) :=
  fun s => (Ok (env_spectrum env (n_spec s)), bump_spec s).
Definition next_map : M (option (list (Q * Q))) :=
  fun s => (Ok (env_map env (n_map s)), bump_map s).
Definition next_proc : M ProcOutcome :=
  fun s => (Ok (env_proc env (n_proc s)), bump_proc s).
Definition next_recv : M RecvOutcome :=
  fun s => (Ok (env_recv env (n_recv s)), bump_recv s).

(** [float(v)]: an int raises OverflowError when it rounds beyond the
    largest double, i.e. when its magnitude is at least [FLOAT_OVERFLOW]
    (round half to even); a finite float is returned unchanged. *)
Definition py_float (v : JValue) : result Q :=
  match v with
  | JNum q => if overflows q then Exc OverflowError else Ok q
  | JBool b => Ok (if b then 1 else 0)
  | JStr s => match float_of_str s with Some q => Ok q | None => Exc ValueError end
  | _ => Exc TypeError
  end.

(** lines 96-100 *)
Definition _disable_confirm (reason : string) : M unit :=
  r <- get_reason ;;
  match r with
  | None => set_reason reason ;; emit (ELog (LogWarnDisabled reason))
  | Some _ => ret tt
  end.

(** [InspectorScan(threshold_db, ...)] (lines 103-133): the pipeline is
    built around the radio source; the handle says how [start()] will go. *)
Definition InspectorScan (threshold_db : Q) : M StartOutcome :=
  o <- next_open ;;
  match o with
  | OConstructError => raise HwError
  | OConstructed h => emit (EConstruct threshold_db) ;; ret h
  end.

Definition tb_start (tb : StartOutcome) : M unit :=
  match tb with
  | StartOk => emit EStart
  | StartRuntimeError => emit EStartFail ;; raise (RuntimeError "start")
  | StartError => emit EStartFail ;; raise HwError
  end.

(** [tb.stop(); tb.wait()] *)
Definition tb_stop : M unit := emit EStop.

Definition tb_set_center (hz : Q) : M unit := emit (ETune hz).

Definition tb_get_latest_map : M (option (list (Q * Q))) := next_map.

Definition tb_get_latest_spectrum : M (list Q) := next_spectrum.

(** lines 155-166; a detection message is the list of its
    (freq_off, bw) rows. *)
Definition parse_rf_map (msg : option (list (Q * Q))) (center_hz : Q)
  : list (Q * Q) :=
  match msg with
  | None => []
  | Some rows =>
      fold_left
        (fun signals row =>
           let '(freq_off, bw) := row in
           let abs_hz := center_hz + freq_off in
           if Qle_bool MIN_BW_HZ bw then (signals ++ [(abs_hz, bw)])%list
           else signals)
        rows []
  end.

(** lines 169-172: [-90.0 <= float(lat) <= 90.0 and ...] evaluates
    [float(lat)] once, stops at the first false comparison, and only then
    evaluates [float(lon)]; an OverflowError of [float] propagates. *)
Definition is_valid_latlon (lat lon : JValue) : result bool :=
  if negb (py_is_number lat) || negb (py_is_number lon) then Ok false
  else
    rbind (py_float lat) (fun a =>
    if Qle_bool (-90) a && Qle_bool a 90 then
      rbind (py_float lon) (fun b => Ok (Qle_bool (-180) b && Qle_bool b 180))
    else Ok false).

(** lines 187-208; [sub_sock] is whether [setup_monitor_sub] returned a
    socket. *)
Definition poll_monitor_for_gps (sub_sock : bool) : M unit :=
  if negb sub_sock then ret tt
  else
    r <- next_recv ;;
    match r with
    | RAgain => ret tt
    | RFail => ret tt
    | RMsg msg =>
        match json_loads msg with
        | None => ret tt
        | Some payload =>
            lat <- lift (py_get payload "lat" JNull) ;;
            lon <- lift (py_get payload "lon" JNull) ;;
            alt <- lift (py_get payload "alt" (JNum 0)) ;;
            ok <- lift (is_valid_latlon lat lon) ;;
            if ok then
              (a <- lift (py_float lat) ;;
               b <- lift (py_float lon) ;;
               c <- lift (py_float alt) ;;
               set_gps (a, b, c))
            else ret tt
        end
    end.

(** lines 267-272: the send is best effort. *)
Definition publish_alert (center_hz bandwidth_hz pal ntsc : Q) (source : string)
  : M unit :=
  g <- get_gps ;;
  emit (EPublish (build_alert_messages g center_hz bandwidth_hz pal ntsc source)).

(** lines 331-333: the scores of one decoded record. *)
Definition record_scores (data : JValue) : result (Q * Q) :=
  rbind (py_get data "signal" (JObj [])) (fun sig =>
  rbind (py_get sig "pal" (JNum 0)) (fun palv =>
  rbind (py_float palv) (fun pal =>
  rbind (py_get sig "ntsc" (JNum 0)) (fun ntscv =>
  rbind (py_float ntscv) (fun ntsc =>
  Ok (pal, ntsc)))))).

(** lines 318-337: the loop over the output lines. *)
Fixpoint scan_lines (lines : list string) (skip_lines : nat)
    (max_pal max_ntsc : Q) : result (Q * Q) :=
  match lines with
  | [] => Ok (max_pal, max_ntsc)
  | line :: rest =>
      if negb (startswith "{" line) then
        scan_lines rest skip_lines max_pal max_ntsc
      else
        match skip_lines with
        | S k => scan_lines rest k max_pal max_ntsc
        | O =>
            match json_loads line with
            | None => scan_lines rest O max_pal max_ntsc
            | Some data =>
                match record_scores data with
                | Exc e => Exc e
                | Ok (pal, ntsc) =>
                    scan_lines rest O (py_max max_pal pal) (py_max max_ntsc ntsc)
                end
            end
        end
  end.

Definition parse_scores (output : string) : result (Q * Q) :=
  scan_lines (py_splitlines output) 2 0 0.

Definition scores_of (output : string) : M (option Q * option Q) :=
  sc <- lift (parse_scores output) ;;
  ret (Some (fst sc), Some (snd sc)).

(** lines 275-337 *)
Definition run_confirm (center_hz : Q) : M (option Q * option Q) :=
  r <- get_reason ;;
  match r with
  | Some _ => ret (None, None)
  | None =>
      emit (EConfirmRun center_hz) ;;
      p <- next_proc ;;
      emit EConfirmDone ;;
      match p with
      | PNotFound =>
          _disable_confirm (SUSCLI_BIN ++ " not found in PATH") ;;
          ret (None, None)
      | PTimeout output => scores_of output
      | PExited returncode output stderr_text =>
          let combined := output ++ newline ++ stderr_text in
          if negb (returncode =? 0)%Z &&
             (py_contains "Unknown command" combined ||
              py_contains "unknown command" combined)
          then
            _disable_confirm "suscli fpvdet command not available" ;;
            ret (None, None)
          else scores_of output
      end
  end.

(** lines 340-351: [attempt] counts from 1, [left] attempts remain. *)
Fixpoint retry_loop (threshold_db : Q) (attempt left : nat) : M StartOutcome :=
  match left with
  | O => raise (RuntimeError "failed to reopen SDR after retries")
  | S left' =>
      tb <- InspectorScan threshold_db ;;
      r <- try_catch (tb_start tb ;; ret (Some tb))
             (fun e =>
                match e with
                | RuntimeError _ =>
                    tb_stop ;;
                    emit (ELog (LogOpenFail attempt)) ;;
                    sleep REOPEN_DELAY_S ;;
                    ret None
                | _ => raise e
                end) ;;
      match r with
      | Some tb' => ret tb'
      | None => retry_loop threshold_db (S attempt) left'
      end
  end.

Definition start_tb_with_retry (threshold_db : Q) : M StartOutcome :=
  retry_loop threshold_db 1 REOPEN_RETRIES.

(** lines 354-370 *)
Fixpoint warmup_channels (mhzs : list Z) (medians : list Q) : M (list Q) :=
  match mhzs with
  | [] => ret medians
  | mhz :: rest =>
      tb_set_center (mhz_to_hz mhz) ;;
      sleep SETTLE_S ;;
      sleep DWELL_S ;;
      spectrum <- tb_get_latest_spectrum ;;
      match spectrum with
      | [] => warmup_channels rest medians
      | _ =>
          match py_median spectrum with
          | Some m => warmup_channels rest (medians ++ [m])%list
          | None => warmup_channels rest medians
          end
      end
  end.

Fixpoint warmup_sweeps (n : nat) (medians : list Q) : M (list Q) :=
  match n with
  | O => ret medians
  | S n' =>
      medians' <- warmup_channels ALL_CENTERS_MHZ medians ;;
      warmup_sweeps n' medians'
  end.

Definition warmup_threshold : M Q :=
  medians <- warmup_sweeps WARMUP_SWEEPS [] ;;
  match medians with
  | [] => ret THRESHOLD_DB
  | _ =>
      match py_median medians with
      | Some m => ret (m + THRESHOLD_OFFSET_DB)
      | None => raise ValueError
      end
  end.

(** [max(signals, key=lambda s: s[1])]: the first pair of largest
    bandwidth; [ValueError] on an empty list. *)
Definition py_max_by_bw (signals : list (Q * Q)) : result (Q * Q) :=
  match signals with
  | [] => Exc ValueError
  | s :: rest =>
      Ok (fold_left (fun best x => if Qlt_bool (snd best) (snd x) then x else best)
                    rest s)
  end.

(** lines 487-516: release the radio, confirm, publish, reacquire. *)
Definition confirm_and_reacquire (threshold_db : Q) (pub debug : bool)
    (confirm_hz confirm_bw : Q) : M unit :=
  tb_stop ;;
  set_tb false ;;
  sleep COOLDOWN_S ;;
  r <- run_confirm confirm_hz ;;
  match r with
  | (Some pal, Some ntsc) =>
      emit (ELog (LogConfirm confirm_hz pal ntsc)) ;;
      (if pub then publish_alert confirm_hz confirm_bw pal ntsc "confirm"
       else ret tt) ;;
      (if debug then emit (ELog (LogDebugConfirm confirm_hz confirm_bw pal ntsc))
       else ret tt)
  | _ => emit (ELog (LogConfirmSkipped confirm_hz))
  end ;;
  sleep COOLDOWN_S ;;
  _ <- start_tb_with_retry threshold_db ;;
  set_tb true.

(** lines 469-518: one channel visit of the scan loop. *)
Definition scan_channel (threshold_db : Q) (pub debug mon_sub : bool) (mhz : Z)
  : M unit :=
  let center_hz := mhz_to_hz mhz in
  poll_monitor_for_gps mon_sub ;;
  tb_set_center center_hz ;;
  sleep SETTLE_S ;;
  sleep DWELL_S ;;
  msg <- tb_get_latest_map ;;
  let signals := parse_rf_map msg center_hz in
  match signals with
  | [] => emit (ELog (LogNone mhz))
  | _ =>
      c <- lift (py_max_by_bw signals) ;;
      emit (ELog (LogSignals mhz signals)) ;;
      (if pub then publish_alert (fst c) (snd c) 0 0 "energy" else ret tt) ;;
      confirm_and_reacquire threshold_db pub debug (fst c) (snd c)
  end.

(** [while True: for mhz in ALL_CENTERS_MHZ: ...], cut after [fuel] channel
    visits by a KeyboardInterrupt.  The interrupt is represented only at
    this point, between two channel visits (where [tb] holds a started
    pipeline); an interrupt in the middle of a visit, during the warm-up or
    during a reopen is outside the model. *)
Fixpoint scan_loop (threshold_db : Q) (pub debug mon_sub : bool) (fuel k : nat)
  : M unit :=
  match fuel with
  | O => ret tt
  | S fuel' =>
      scan_channel threshold_db pub debug mon_sub
        (nth (k mod length ALL_CENTERS_MHZ) ALL_CENTERS_MHZ 0%Z) ;;
      scan_loop threshold_db pub debug mon_sub fuel' (S k)
  end.

(** lines 432-524.  [zmq] is [args.zmq] (publishing enabled), [visits] the
    number of channel visits before the user interrupts; the interrupt
    arrives between two channel visits (see [scan_loop]). *)
Definition main (zmq debug : bool) (visits : nat) : M unit :=
  let pub := zmq in
  let mon_sub := env_mon_sub env in
  tb <- InspectorScan THRESHOLD_DB ;;
  set_tb true ;;
  tb_start tb ;;
  threshold_db <-
    (if (Nat.ltb 0 WARMUP_SWEEPS && negb AUTO_THRESHOLD)%bool then
       t <- warmup_threshold ;;
       (if debug then emit (ELog (LogWarmup t)) else ret tt) ;;
       tb_stop ;;
       set_tb false ;;
       sleep COOLDOWN_S ;;
       _ <- start_tb_with_retry t ;;
       set_tb true ;;
       ret t
     else ret THRESHOLD_DB) ;;
  try_finally (scan_loop threshold_db pub debug mon_sub visits 0)
    (b <- get_tb ;; if b then tb_stop else ret tt).

End Program.

(** ** A decoder for the JSON texts of the examples

    [json_subset] agrees with [json.loads] on texts made of objects,
    arrays, strings without escapes, [true], [false], [null] and numbers
    without exponent, and reports a decode error on everything else; it
    instantiates the [json_loads] parameter in concrete runs.  [float_subset]
    does the same for [float] on strings.  A float literal beyond the double
    range, which [json.loads] and [float] turn into an infinity, is refused
    by both: infinities are outside the model. *)

Definition is_ws (c : ascii) : bool :=
  existsb (Nat.eqb (nat_of_ascii c)) [9; 10; 13; 32]%nat.

Fixpoint skip_ws (s : string) : string :=
  match s with
  | String c r => if is_ws c then skip_ws r else s
  | EmptyString => s
  end.

Fixpoint digit_run (s : string) (acc : Z) (cnt : nat) : Z * nat * string :=
  match s with
  | String c r =>
      let n := nat_of_ascii c in
      if (Nat.leb 48 n && Nat.leb n 57)%bool
      then digit_run r (acc * 10 + Z.of_nat (n - 48))%Z (S cnt)
      else (acc, cnt, s)
  | EmptyString => (acc, cnt, s)
  end.

(** A number literal without exponent: its value, whether it is an int
    literal (no fraction part), and the rest of the text. *)
Definition parse_number (s : string) : option (Q * bool * string) :=
  let '(neg, s1) :=
    match s with
    | String c r => if Ascii.eqb c "-"%char then (true, r) else (false, s)
    | EmptyString => (false, s)
    end in
  let sign := fun z : Z => if neg then (- z)%Z else z in
  let '(ip, n1, s2) := digit_run s1 0%Z O in
  if Nat.eqb n1 0 then None
  else
    match s2 with
    | String c r =>
        if Ascii.eqb c "."%char then
          let '(fp, n2, s3) := digit_run r 0%Z O in
          if Nat.eqb n2 0 then None
          else
            Some (Qred (Qmake (sign (ip * 10 ^ Z.of_nat n2 + fp)%Z)
                              (Pos.of_nat (10 ^ n2))), false, s3)
        else Some (inject_Z (sign ip), true, s2)
    | EmptyString => Some (inject_Z (sign ip), true, s2)
    end.

Fixpoint parse_str (s : string) (acc : list ascii) : option (string * string) :=
  match s with
  | EmptyString => None
  | String c r =>
      if Ascii.eqb c (ascii_of_nat 34) then Some (string_of_rev acc EmptyString, r)
      else if Ascii.eqb c "\"%char then None
      else parse_str r (c :: acc)
  end.

Definition expect (c : ascii) (s : string) : option string :=
  match skip_ws s with
  | String d r => if Ascii.eqb c d then Some r else None
  | EmptyString => None
  end.

Fixpoint parse_value (fuel : nat) (s : string) : option (JValue * string) :=
  match fuel with
  | O => None
  | S f =>
      match skip_ws s with
      | EmptyString => None
      | String c r =>
          if Ascii.eqb c "{"%char then
            match expect "}"%char r with
            | Some r' => Some (JObj [], r')
            | None =>
                match parse_members f r with
                | Some (kvs, r') => Some (JObj kvs, r')
                | None => None
                end
            end
          else if Ascii.eqb c "["%char then
            match expect "]"%char r with
            | Some r' => Some (JArr [], r')
            | None =>
                match parse_elements f r with
                | Some (vs, r') => Some (JArr vs, r')
                | None => None
                end
            end
          else if Ascii.eqb c (ascii_of_nat 34) then
            match parse_str r [] with
            | Some (str, r') => Some (JStr str, r')
            | None => None
            end
          else if String.prefix "true" (String c r) then
            Some (JBool true, substring 4 (String.length r) (String c r))
          else if String.prefix "false" (String c r) then
            Some (JBool false, substring 5 (String.length r) (String c r))
          else if String.prefix "null" (String c r) then
            Some (JNull, substring 4 (String.length r) (String c r))
          else
            match parse_number (String c r) with
            | Some (q, true, r') => Some (JNum q, r')
            | Some (q, false, r') => if overflows q then None else Some (JNum q, r')
            | None => None
            end
      end
  end
with parse_members (fuel : nat) (s : string)
  : option (list (string * JValue) * string) :=
  match fuel with
  | O => None
  | S f =>
      match expect (ascii_of_nat 34) s with
      | None => None
      | Some r =>
          match parse_str r [] with
          | None => None
          | Some (k, r1) =>
              match expect ":"%char r1 with
              | None => None
              | Some r2 =>
                  match parse_value f r2 with
                  | None => None
                  | Some (v, r3) =>
                      match expect ","%char r3 with
                      | Some r4 =>
                          match parse_members f r4 with
                          | Some (kvs, r5) => Some ((k, v) :: kvs, r5)
                          | None => None
                          end
                      | None =>
                          match expect "}"%char r3 with
                          | Some r4 => Some ([(k, v)], r4)
                          | None => None
                          end
                      end
                  end
              end
          end
      end
  end
with parse_elements (fuel : nat) (s : string)
  : option (list JValue * string) :=
  match fuel with
  | O => None
  | S f =>
      match parse_value f s with
      | None => None
      | Some (v, r3) =>
          match expect ","%char r3 with
          | Some r4 =>
              match parse_elements f r4 with
              | Some (vs, r5) => Some (v :: vs, r5)
              | None => None
              end
          | None =>
              match expect "]"%char r3 with
              | Some r4 => Some ([v], r4)
              | None => None
              end
          end
      end
  end.

Definition json_subset (s : string) : option JValue :=
  match parse_value (S (String.length s)) s with
  | Some (v, r) => match skip_ws r with EmptyString => Some v | _ => None end
  | None => None
  end.

Definition float_subset (s : string) : option Q :=
  match parse_number (skip_ws s) with
  | Some (q, _, r) =>
      if overflows q then None
      else match skip_ws r with EmptyString => Some q | _ => None end
  | None => None
  end.

(** ** Properties of event traces *)

(** Radio ownership: [hw_held] from the construction of a pipeline until its
    [stop(); wait()], [hw_confirming] from a [subprocess.run] call until it
    returns.  A pipeline is never built while another one is held or while
    a confirmation runs; a confirmation is never started while a pipeline
    is held or while another confirmation runs. *)
Record hw_auto := mkHw { hw_held : bool; hw_confirming : bool }.

Definition hw_step (a : hw_auto) (e : event) : option hw_auto :=
  match e with
  | EConstruct _ =>
      if hw_held a || hw_confirming a then None else Some (mkHw true false)
  | EStop => Some (mkHw false (hw_confirming a))
  | EConfirmRun _ =>
      if hw_held a || hw_confirming a then None else Some (mkHw false true)
  | EConfirmDone =>
      if hw_confirming a then Some (mkHw (hw_held a) false) else None
  | _ => Some a
  end.

Definition hw_run (t : list event) : option hw_auto :=
  fold_left (fun o e => match o with Some a => hw_step a e | None => None end)
            t (Some (mkHw false false)).

(** The confirmation breaker as seen in the output: the disable warning is
    printed at most once, and once it has been printed no classifier
    subprocess is started and no confirmation scores are reported. *)
Definition brk_step (warned : bool) (e : event) : option bool :=
  match e with
  | ELog (LogWarnDisabled _) => if warned then None else Some true
  | EConfirmRun _ => if warned then None else Some false
  | ELog (LogConfirm _ _ _) => if warned then None else Some false
  | _ => Some warned
  end.

Definition brk_run (t : list event) : option bool :=
  fold_left (fun o e => match o with Some w => brk_step w e | None => None end)
            t (Some false).

(** A published alert whose Signal Info names the "energy" stage carries
    zero PAL and NTSC confidences. *)
Definition energy_part_ok (p : AlertPart) : bool :=
  match p with
  | SignalInfoMsg si =>
      if String.eqb (si_source si) "energy"
      then Qeq_bool (si_pal_conf si) 0 && Qeq_bool (si_ntsc_conf si) 0
      else true
  | _ => true
  end.

Definition energy_ok (e : event) : bool :=
  match e with
  | EPublish a => forallb energy_part_ok a
  | _ => true
  end.

(** A classifier run that timed out, or exited non-zero without an
    "unknown command" message, with captured stdout [out]. *)
Definition failed_attempt (o : ProcOutcome) (out : string) : Prop :=
  o = PTimeout out \/
  exists code err,
    o = PExited code out err /\ code <> 0%Z /\
    py_contains "Unknown command" (out ++ newline ++ err) = false /\
    py_contains "unknown command" (out ++ newline ++ err) = false.

(** The events of one failed attempt of [start_tb_with_retry]. *)
Definition fail_events (threshold_db : Q) (attempt : nat) : list event :=
  [EConstruct threshold_db; EStartFail; EStop; ELog (LogOpenFail attempt);
   ESleep REOPEN_DELAY_S].

Definition failures (threshold_db : Q) (first k : nat) : list event :=
  concat (map (fail_events threshold_db) (seq first k)).

(** The lines [confirm()] decodes: those starting with "{", after the first
    two of them. *)
Definition body_lines (output : string) : list string :=
  skipn 2 (filter (startswith "{") (py_splitlines output)).

(** JSON texts in the examples are written with ['] for the double quote. *)
Fixpoint dq (s : string) : string :=
  match s with
  | EmptyString => EmptyString
  | String c r =>
      String (if Ascii.eqb c "'"%char then ascii_of_nat 34 else c) (dq r)
  end.

(** ** Weakest preconditions and the scan-loop invariant *)

Definition wp {A} (m : M A) (Q : A -> St -> Prop) (E : exn -> St -> Prop)
    (s : St) : Prop :=
  match m s with
  | (Ok a, s') => Q a s'
  | (Exc e, s') => E e s'
  end.

Definition reason_set (s : St) : bool :=
  match confirm_disabled_reason s with Some _ => true | None => false end.

(** The three trace automata accept the trace so far, no confirmation is in
    progress, a pipeline is held exactly when [held], and the breaker
    automaton has seen the warning exactly when the breaker is set. *)
Definition loop_inv (held : bool) (s : St) : Prop :=
  hw_run (trace s) = Some (mkHw held false) /\
  brk_run (trace s) = Some (reason_set s) /\
  forallb energy_ok (trace s) = true.

Definition any_inv (s : St) : Prop := exists held, loop_inv held s.

(** An event none of the automata reacts to. *)
Definition neutral (e : event) : Prop :=
  (forall a, hw_step a e = Some a) /\ (forall w, brk_step w e = Some w) /\
  energy_ok e = true.

(** ** A concrete environment for the examples

    Every open succeeds, the spectrum is empty during warm-up, every
    channel reports one 6 MHz wide signal at its center, and the
    classifier exits with status 1 without printing anything. *)
Definition env_exit1 : Env :=
  mkEnv (fun _ => OConstructed StartOk) (fun _ => [])
        (fun _ => Some [(0, 6000000)])
        (fun _ => PExited 1 EmptyString "boom") (fun _ => RAgain) false.

(** The classifier binary is missing. *)
Definition env_no_suscli : Env :=
  mkEnv (fun _ => OConstructed StartOk) (fun _ => [])
        (fun _ => Some [(0, 6000000)])
        (fun _ => PNotFound) (fun _ => RAgain) false.

Definition count_events (p : event -> bool) (t : list event) : nat :=
  length (filter p t).

Definition is_warn (e : event) : bool :=
  match e with ELog (LogWarnDisabled _) => true | _ => false end.

Definition is_confirm_run (e : event) : bool :=
  match e with EConfirmRun _ => true | _ => false end.

(** The first two reopen attempts fail in [start()] with a RuntimeError,
    the third succeeds. *)
Definition env_retry2 : Env :=
  mkEnv (fun k => match k with
                  | O | S O => OConstructed StartRuntimeError
                  | _ => OConstructed StartOk
                  end)
        (fun _ => []) (fun _ => None) (fun _ => PNotFound) (fun _ => RAgain) false.

(** The first pipeline starts; every later one fails in [start()] with a
    RuntimeError, so the reopen after the warm-up never succeeds. *)
Definition env_reopen_fails : Env :=
  mkEnv (fun k => match k with
                  | O => OConstructed StartOk
                  | _ => OConstructed StartRuntimeError
                  end)
        (fun _ => []) (fun _ => Some [(0, 6000000)])
        (fun _ => PExited 1 EmptyString "boom") (fun _ => RAgain) false.

(** The first open and the reopen after the warm-up succeed; every later
    pipeline fails in [start()] with a RuntimeError, so the reopen after the
    first confirmation never succeeds. *)
Definition env_confirm_reopen_fails : Env :=
  mkEnv (fun k => match k with
                  | O | S O => OConstructed StartOk
                  | _ => OConstructed StartRuntimeError
                  end)
        (fun _ => []) (fun _ => Some [(0, 6000000)])
        (fun _ => PExited 1 EmptyString "boom") (fun _ => RAgain) false.

(** ** What a confirmation for one candidate leaves in the trace

    The classifier runs on the candidate's frequency only, and every alert
    published is a "confirm" alert for the candidate ([g] is the location
    known at that time). *)
Definition cand_event (hz bw : Q) (g : option (Q * Q * Q)) (e : event) : Prop :=
  match e with
  | EConfirmRun h => h = hz
  | EPublish a => exists pal ntsc, a = build_alert_messages g hz bw pal ntsc "confirm"
  | _ => True
  end.

(** The trace extends [t0] by such events only, and the location is [g]. *)
Definition ext_cand (hz bw : Q) (g : option (Q * Q * Q)) (t0 : list event)
    (s : St) : Prop :=
  exists rest, trace s = (t0 ++ rest)%list /\
    Forall (cand_event hz bw g) rest /\ last_sensor_gps s = g.

(** Two detections on the 5805 MHz channel: 0.2 MHz above the center with
    4.2 MHz bandwidth, and 0.5 MHz above with 6.0 MHz. *)
Definition env_two_signals : Env :=
  mkEnv (fun _ => OConstructed StartOk) (fun _ => [])
        (fun _ => Some [(200000, 4200000); (500000, 6000000)])
        (fun _ => PNotFound) (fun _ => RAgain) false.

(** ** Predicates on the events of a run *)

(** What an exception of the scan loop leaves when every reopen fails,
    [n] pipelines having been opened before: either no further pipeline was
    opened, or the exception is the reopen error, raised after five failed
    opens, and no pipeline is held. *)
Definition reopen_raise (thr : Q) (n : nat) (e : exn) (s' : St) : Prop :=
  n_open s' = n \/
  (e = RuntimeError "failed to reopen SDR after retries" /\ main_tb s' = false /\
   n_open s' = (n + REOPEN_RETRIES)%nat /\
   exists t, trace s' = (t ++ failures thr 1 REOPEN_RETRIES)%list).

Definition warmup_events (mhzs : list Z) : list event :=
  flat_map (fun mhz => [ETune (mhz_to_hz mhz); ESleep SETTLE_S; ESleep DWELL_S]) mhzs.

(** A stored location is a valid one. *)
Definition loc_ok (g : option (Q * Q * Q)) : Prop :=
  match g with
  | Some (lat, lon, _) => -90 <= lat <= 90 /\ -180 <= lon <= 180
  | None => True
  end.

(** Events emitted regardless of the flags and of the data. *)
Definition plain_event (e : event) : Prop :=
  match e with
  | EPublish _ | ETune _ | ELog (LogWarmup _) | ELog (LogDebugConfirm _ _ _ _)
  | ELog (LogConfirm _ _ _) => False
  | _ => True
  end.

(** The trace extends [t0] by events satisfying [P], and the stored
    location is valid. *)
Definition trace_ok (P : event -> Prop) (t0 : list event) (s : St) : Prop :=
  exists rest, trace s = (t0 ++ rest)%list /\ Forall P rest /\ loc_ok (last_sensor_gps s).


Definition is_publish (e : event) : bool :=
  match e with EPublish _ => true | _ => false end.

Definition is_debug_log (e : event) : bool :=
  match e with
  | ELog (LogWarmup _) | ELog (LogDebugConfirm _ _ _ _) => true
  | _ => false
  end.

Definition location_ok_part (p : AlertPart) : Prop :=
  match p with
  | LocationVector lat lon _ => -90 <= lat <= 90 /\ -180 <= lon <= 180
  | _ => True
  end.

Definition location_ok_event (e : event) : Prop :=
  match e with EPublish a => Forall location_ok_part a | _ => True end.

Definition scores_ok_part (p : AlertPart) : Prop :=
  match p with
  | SignalInfoMsg si => 0 <= si_pal_conf si /\ 0 <= si_ntsc_conf si
  | _ => True
  end.

Definition scores_ok_event (e : event) : Prop :=
  match e with
  | EPublish a => Forall scores_ok_part a
  | ELog (LogConfirm _ pal ntsc) | ELog (LogDebugConfirm _ _ pal ntsc) =>
      0 <= pal /\ 0 <= ntsc
  | _ => True
  end.


(** * Proofs *)

(** ** Detector bridge *)

Lemma parse_rf_map_fold : forall center_hz rows acc,
  fold_left
    (fun signals row =>
       let '(freq_off, bw) := row in
       let abs_hz := center_hz + freq_off in
       if Qle_bool MIN_BW_HZ bw then (signals ++ [(abs_hz, bw)])%list
       else signals)
    rows acc =
  (acc ++ map (fun r => (center_hz + fst r, snd r))
              (filter (fun r => Qle_bool MIN_BW_HZ (snd r)) rows))%list.
Proof.
  intros center_hz rows; induction rows as [|[off bw] rows IH]; intros acc.
  - simpl. now rewrite app_nil_r.
  - simpl. destruct (Qle_bool MIN_BW_HZ bw); rewrite IH; simpl.
    + now rewrite <- app_assoc.
    + reflexivity.
Qed.

(** C8: the detection report is exactly the reported pairs whose bandwidth
    is at least [MIN_BW_HZ] (4 MHz), each moved to absolute frequency by
    adding the channel center; every returned pair has bandwidth at least
    the minimum; no message yields the empty report. *)
Theorem parse_rf_map_filter : forall msg center_hz,
  parse_rf_map msg center_hz =
    match msg with
    | None => []
    | Some rows =>
        map (fun r => (center_hz + fst r, snd r))
            (filter (fun r => Qle_bool MIN_BW_HZ (snd r)) rows)
    end /\
  Forall (fun p => MIN_BW_HZ <= snd p) (parse_rf_map msg center_hz) /\
  parse_rf_map None center_hz = [].
Proof.
  intros msg center_hz.
  assert (Heq : parse_rf_map msg center_hz =
    match msg with
    | None => []
    | Some rows =>
        map (fun r => (center_hz + fst r, snd r))
            (filter (fun r => Qle_bool MIN_BW_HZ (snd r)) rows)
    end).
  { destruct msg as [rows|]; [|reflexivity].
    unfold parse_rf_map. now rewrite parse_rf_map_fold. }
  split; [exact Heq|split; [|reflexivity]].
  rewrite Heq. destruct msg as [rows|]; [|constructor].
  apply Forall_forall. intros p Hp.
  apply in_map_iff in Hp as [r [<- Hr]].
  apply filter_In in Hr as [_ Hb]. simpl.
  now apply Qle_bool_iff.
Qed.

(** ** Threshold calibration *)

Lemma insert_Q_length : forall x l, length (insert_Q x l) = S (length l).
Proof.
  intros x l; induction l as [|y l IH]; simpl; [reflexivity|].
  destruct (Qle_bool x y); simpl; congruence.
Qed.

Lemma sort_Q_length : forall l, length (sort_Q l) = length l.
Proof.
  induction l as [|x l IH]; simpl; [reflexivity|].
  unfold sort_Q in *; simpl. now rewrite insert_Q_length, IH.
Qed.

Lemma py_median_some : forall l, l <> [] -> exists m, py_median l = Some m.
Proof.
  intros l Hl. unfold py_median. rewrite sort_Q_length.
  destruct l as [|x l]; [congruence|]. simpl length.
  destruct (Nat.odd (S (length l))); eauto.
Qed.

Section Warmup.
Variable env : Env.

Lemma warmup_channels_spec : forall ms acc s,
  exists meds s',
    warmup_channels env ms acc s = (Ok (acc ++ meds)%list, s') /\
    Forall2 (fun sp m => py_median sp = Some m)
      (filter (fun sp : list Q => negb (Nat.eqb (length sp) 0))
         (map (env_spectrum env) (seq (n_spec s) (length ms)))) meds /\
    n_spec s' = (n_spec s + length ms)%nat.
Proof.
  induction ms as [|mhz ms IH]; intros acc s.
  - exists [], s. simpl. rewrite app_nil_r. repeat split; [constructor|lia].
  - simpl length. simpl seq. simpl map.
    cbn [warmup_channels bind tb_set_center sleep emit tb_get_latest_spectrum
         next_spectrum].
    cbn [n_spec set_trace trace].
    set (s2 := bump_spec _).
    assert (Hn : n_spec s2 = S (n_spec s)) by reflexivity.
    destruct (env_spectrum env (n_spec s)) as [|x sp] eqn:Hsp.
    + destruct (IH acc s2) as [meds [s' [Hrun [Hf Hc]]]].
      exists meds, s'. rewrite Hrun. simpl.
      rewrite Hn in Hf, Hc. repeat split; [exact Hf|lia].
    + destruct (py_median_some (x :: sp)) as [m Hm]; [discriminate|].
      rewrite Hm.
      destruct (IH (acc ++ [m])%list s2) as [meds [s' [Hrun [Hf Hc]]]].
      exists (m :: meds), s'. rewrite Hrun, <- app_assoc. simpl.
      rewrite Hn in Hf, Hc. repeat split; [constructor; [exact Hm|exact Hf]|lia].
Qed.

End Warmup.

(** C6: the calibrated threshold is the median of the per-channel medians
    recorded over the warm-up sweep plus [THRESHOLD_OFFSET_DB] (6.0 dB);
    channels whose spectrum is empty are skipped; with no recorded median it
    is the static [THRESHOLD_DB] (-90.0 dB). *)
Theorem warmup_threshold_calibrated : forall env s,
  let spectra :=
    map (env_spectrum env)
        (seq (n_spec s) (WARMUP_SWEEPS * length ALL_CENTERS_MHZ)) in
  let recorded :=
    filter (fun sp : list Q => negb (Nat.eqb (length sp) 0)) spectra in
  exists thr s',
    warmup_threshold env s = (Ok thr, s') /\
    ((recorded = [] /\ thr = THRESHOLD_DB) \/
     (exists medians m,
        Forall2 (fun sp m => py_median sp = Some m) recorded medians /\
        py_median medians = Some m /\
        thr = m + THRESHOLD_OFFSET_DB)).
Proof.
  intros env s spectra recorded.
  unfold warmup_threshold, WARMUP_SWEEPS. cbn [warmup_sweeps].
  destruct (warmup_channels_spec env ALL_CENTERS_MHZ [] s)
    as [meds [s' [Hrun [Hf _]]]].
  unfold bind at 1. unfold bind at 1. rewrite Hrun. simpl app.
  unfold recorded, spectra. rewrite Nat.mul_1_l.
  destruct meds as [|m0 meds'] eqn:Hmeds.
  - exists THRESHOLD_DB, s'. split; [reflexivity|left].
    split; [|reflexivity].
    revert Hf. generalize (filter (fun sp : list Q => negb (Nat.eqb (length sp) 0))
      (map (env_spectrum env) (seq (n_spec s) (length ALL_CENTERS_MHZ)))).
    intros l Hf. inversion Hf. reflexivity.
  - destruct (py_median_some (m0 :: meds')) as [m Hm]; [discriminate|].
    cbn [ret]. rewrite Hm.
    exists (m + THRESHOLD_OFFSET_DB), s'. split; [reflexivity|right].
    exists (m0 :: meds'), m. repeat split; assumption.
Qed.

(** The calibration example of the spec: medians -95, -93, -94 give -88. *)
Example warmup_threshold_example :
  py_median [-95; -93; -94] = Some (-94) /\ -94 + THRESHOLD_OFFSET_DB == -88.
Proof. split; reflexivity. Qed.

(** ** Best-of-run reduction of the classifier output *)

Lemma py_max_ge_l : forall a b, a <= py_max a b.
Proof.
  intros a b. unfold py_max, Qlt_bool.
  destruct (Qle_bool b a) eqn:H; simpl.
  - apply Qle_refl.
  - apply Qlt_le_weak, Qnot_le_lt. intros Hc.
    apply Qle_bool_iff in Hc. congruence.
Qed.

Lemma py_max_ge_r : forall a b, b <= py_max a b.
Proof.
  intros a b. unfold py_max, Qlt_bool.
  destruct (Qle_bool b a) eqn:H; simpl.
  - now apply Qle_bool_iff.
  - apply Qle_refl.
Qed.

Lemma py_max_cases : forall a b, py_max a b = a \/ py_max a b = b.
Proof.
  intros a b. unfold py_max. destruct (Qlt_bool a b); auto.
Qed.

Section Scores.
Variable json_loads : string -> option JValue.
Variable float_of_str : string -> option Q.

Lemma scan_lines_max : forall lines skip mp mn,
  let body := skipn skip (filter (startswith "{") lines) in
  (forall L d, In L body -> json_loads L = Some d ->
     exists p n, record_scores float_of_str d = Ok (p, n)) ->
  exists rp rn,
    scan_lines json_loads float_of_str lines skip mp mn = Ok (rp, rn) /\
    mp <= rp /\ mn <= rn /\
    (forall L d p n, In L body -> json_loads L = Some d ->
       record_scores float_of_str d = Ok (p, n) -> p <= rp /\ n <= rn) /\
    (rp = mp \/ exists L d n, In L body /\ json_loads L = Some d /\
       record_scores float_of_str d = Ok (rp, n)) /\
    (rn = mn \/ exists L d p, In L body /\ json_loads L = Some d /\
       record_scores float_of_str d = Ok (p, rn)).
Proof.
  induction lines as [|line rest IH]; intros skip mp mn; cbv zeta; intros Hok.
  - exists mp, mn. simpl. rewrite skipn_nil.
    repeat split; try apply Qle_refl; auto; intros; contradiction.
  - cbn [scan_lines filter] in *.
    destruct (startswith "{" line) eqn:Hs; simpl negb; cbv iota.
    + destruct skip as [|k].
      * (* a record line *)
        cbn [skipn] in *.
        destruct (json_loads line) as [d|] eqn:Hj.
        -- destruct (Hok line d (or_introl eq_refl) Hj) as [p [n Hr]].
           rewrite Hr.
           destruct (IH O (py_max mp p) (py_max mn n)) as
             [rp [rn [Hrun [Hp [Hn [Hub [Hwp Hwn]]]]]]].
           { intros L d' HL HL'. apply (Hok L d'); [right; exact HL|exact HL']. }
           exists rp, rn. split; [exact Hrun|].
           split; [eapply Qle_trans; [apply py_max_ge_l|exact Hp]|].
           split; [eapply Qle_trans; [apply py_max_ge_l|exact Hn]|].
           split.
           { intros L d' p' n' [<-|HL] HL' Hr'.
             - rewrite Hj in HL'. injection HL' as <-. rewrite Hr in Hr'.
               injection Hr' as <- <-.
               split.
               ++ apply Qle_trans with (py_max mp p); [apply py_max_ge_r|exact Hp].
               ++ apply Qle_trans with (py_max mn n); [apply py_max_ge_r|exact Hn].
             - exact (Hub L d' p' n' HL HL' Hr'). }
           split.
           { destruct Hwp as [->|[L [d' [n' [HL [HL' Hr']]]]]].
             - destruct (py_max_cases mp p) as [Hm | Hm]; rewrite Hm;
                 [left; reflexivity|].
               right. exists line, d, n. split; [left; reflexivity|auto].
             - right. exists L, d', n'. split; [right; exact HL|auto]. }
           { destruct Hwn as [->|[L [d' [p' [HL [HL' Hr']]]]]].
             - destruct (py_max_cases mn n) as [Hm | Hm]; rewrite Hm;
                 [left; reflexivity|].
               right. exists line, d, p. split; [left; reflexivity|auto].
             - right. exists L, d', p'. split; [right; exact HL|auto]. }
        -- destruct (IH O mp mn) as
             [rp [rn [Hrun [Hp [Hn [Hub [Hwp Hwn]]]]]]].
           { intros L d' HL HL'. apply (Hok L d'); [right; exact HL|exact HL']. }
           exists rp, rn. split; [exact Hrun|].
           do 2 (split; [assumption|]).
           split.
           { intros L d' p' n' [<-|HL] HL' Hr'; [congruence|].
             exact (Hub L d' p' n' HL HL' Hr'). }
           split.
           { destruct Hwp as [->|[L [d' [n' [HL [HL' Hr']]]]]]; [now left|].
             right. exists L, d', n'. split; [right; exact HL|auto]. }
           { destruct Hwn as [->|[L [d' [p' [HL [HL' Hr']]]]]]; [now left|].
             right. exists L, d', p'. split; [right; exact HL|auto]. }
      * (* a header line *)
        exact (IH k mp mn Hok).
    + exact (IH skip mp mn Hok).
Qed.

End Scores.

(** C5 (amended): [confirm()] skips the first two lines starting with "{",
    JSON-decodes every later such line on its own and ignores those that do
    not decode; when every decoded line has [signal.pal] / [signal.ntsc]
    absent (read as 0.0) or a number [float()] converts (a float, or an int
    within the double range), it returns the larger
    of 0.0 and the maximum PAL score of the decoded lines, and likewise for
    NTSC: both results are at least 0.0 and every decoded score, and each is
    0.0 or one of the decoded scores. *)
Theorem parse_scores_best_of_run : forall json_loads float_of_str output,
  (forall L d, In L (body_lines output) -> json_loads L = Some d ->
     exists p n, record_scores float_of_str d = Ok (p, n)) ->
  exists pal ntsc,
    parse_scores json_loads float_of_str output = Ok (pal, ntsc) /\
    0 <= pal /\ 0 <= ntsc /\
    (forall L d p n, In L (body_lines output) -> json_loads L = Some d ->
       record_scores float_of_str d = Ok (p, n) -> p <= pal /\ n <= ntsc) /\
    (pal = 0 \/ exists L d n, In L (body_lines output) /\
       json_loads L = Some d /\ record_scores float_of_str d = Ok (pal, n)) /\
    (ntsc = 0 \/ exists L d p, In L (body_lines output) /\
       json_loads L = Some d /\ record_scores float_of_str d = Ok (p, ntsc)).
Proof.
  intros json_loads float_of_str output Hok.
  exact (scan_lines_max json_loads float_of_str (py_splitlines output) 2 0 0 Hok).
Qed.

(** The spec's example: after the two header lines, PAL scores
    0.2, 0.9, 0.4 and NTSC scores 0.1, 0.1, 0.8 give (0.9, 0.8). *)
Lemma parse_scores_best_of_run_witness :
  let output :=
    (dq "{'fpvdet': 'start'}") ++ newline ++
    (dq "{'profile': 'fpv58_race_2m'}") ++ newline ++
    (dq "{'signal': {'pal': 0.2, 'ntsc': 0.1}}") ++ newline ++
    (dq "{'signal': {'pal': 0.9, 'ntsc': 0.1}}") ++ newline ++
    (dq "{'signal': {'pal': 0.4, 'ntsc': 0.8}}") in
  parse_scores json_subset float_subset output = Ok (9 # 10, 4 # 5) /\
  exists pal ntsc,
    parse_scores json_subset float_subset output = Ok (pal, ntsc) /\
    0 <= pal /\ 0 <= ntsc /\
    (forall L d p n, In L (body_lines output) -> json_subset L = Some d ->
       record_scores float_subset d = Ok (p, n) -> p <= pal /\ n <= ntsc) /\
    (pal = 0 \/ exists L d n, In L (body_lines output) /\
       json_subset L = Some d /\ record_scores float_subset d = Ok (pal, n)) /\
    (ntsc = 0 \/ exists L d p, In L (body_lines output) /\
       json_subset L = Some d /\ record_scores float_subset d = Ok (p, ntsc)).
Proof.
  intros output. split; [vm_compute; reflexivity|].
  apply parse_scores_best_of_run.
  intros L d HL. vm_compute in HL.
  destruct HL as [<-|[<-|[<-|[]]]]; intros H; vm_compute in H;
    injection H as <-; vm_compute; do 2 eexists; reflexivity.
Defined.

(** C5 counterexample: all decoded scores negative.  The only decoded line
    has PAL -0.5 and NTSC -0.25, yet [confirm()] returns (0.0, 0.0). *)
Lemma parse_scores_negative_scores :
  let record := (dq "{'signal': {'pal': -0.5, 'ntsc': -0.25}}") in
  let output :=
    (dq "{'fpvdet': 'start'}") ++ newline ++
    (dq "{'profile': 'fpv58_race_2m'}") ++ newline ++ record in
  body_lines output = [record] /\
  (exists d, json_subset record = Some d /\
     record_scores float_subset d = Ok (-1 # 2, -1 # 4)) /\
  parse_scores json_subset float_subset output = Ok (0, 0).
Proof.
  intros record output. split; [vm_compute; reflexivity|].
  split.
  { exists (JObj [("signal", JObj [("pal", JNum (-1 # 2)); ("ntsc", JNum (-1 # 4))])]).
    split; vm_compute; reflexivity. }
  vm_compute. reflexivity.
Qed.

(** ** Location tracker *)

(** The two messages of the spec's location example behave as it says. *)
Example poll_monitor_for_gps_examples :
  let env_of msg :=
    mkEnv (fun _ => OConstructed StartOk) (fun _ => []) (fun _ => None)
          (fun _ => PNotFound) (fun _ => RMsg msg) true in
  poll_monitor_for_gps json_subset float_subset
    (env_of (dq "{'lat': 95.0, 'lon': 10.0, 'alt': 1.0}")) true init_st =
    (Ok tt, bump_recv init_st) /\
  last_sensor_gps (snd (poll_monitor_for_gps json_subset float_subset
    (env_of (dq "{'lat': 45.0, 'lon': -120.0, 'alt': 100.0}")) true init_st)) =
    Some (45, -120, 100).
Proof. split; vm_compute; reflexivity. Qed.

(** C9 (code_bug): a telemetry message that decodes to JSON but whose
    [alt] is null makes [float(alt)] raise [TypeError], and one that decodes
    to a list makes [payload.get] raise [AttributeError]; neither is caught,
    and in [main] the exception ends the scan loop. *)
Theorem poll_monitor_for_gps_malformed_raises :
  let env_of msg :=
    mkEnv (fun _ => OConstructed StartOk) (fun _ => [-95]) (fun _ => None)
          (fun _ => PNotFound) (fun _ => RMsg msg) true in
  let bad_alt := (dq "{'lat': 45.0, 'lon': -120.0, 'alt': null}") in
  fst (poll_monitor_for_gps json_subset float_subset (env_of bad_alt) true init_st)
    = Exc TypeError /\
  fst (poll_monitor_for_gps json_subset float_subset (env_of "[1]") true init_st)
    = Exc AttributeError /\
  fst (main json_subset float_subset (env_of bad_alt) false false 3 init_st)
    = Exc TypeError.
Proof. vm_compute. repeat split; reflexivity. Qed.

(** ** Hardware session reopen: concrete runs *)

(** C3 counterexample: a pipeline construction that raises is not retried
    (one attempt, although the second would have succeeded), and the first
    open in [main] is not retried either. *)
Lemma start_tb_with_retry_no_retry_on_construct :
  let env_c :=
    mkEnv (fun k => match k with O => OConstructError | _ => OConstructed StartOk end)
          (fun _ => []) (fun _ => None) (fun _ => PNotFound) (fun _ => RAgain) false in
  let env_s :=
    mkEnv (fun k => match k with
                    | O => OConstructed StartRuntimeError
                    | _ => OConstructed StartOk end)
          (fun _ => []) (fun _ => None) (fun _ => PNotFound) (fun _ => RAgain) false in
  fst (start_tb_with_retry env_c 0 init_st) = Exc HwError /\
  n_open (snd (start_tb_with_retry env_c 0 init_st)) = 1%nat /\
  fst (main json_subset float_subset env_s false false 5 init_st) =
    Exc (RuntimeError "start") /\
  n_open (snd (main json_subset float_subset env_s false false 5 init_st)) = 1%nat.
Proof. vm_compute. repeat split; reflexivity. Qed.

(** ** Confirmation engine: concrete run *)

(** C4 counterexample: the classifier exits with status 1 and prints
    nothing recognisable; [run_confirm] still returns scores (0.0, 0.0),
    and the loop publishes a "confirm" alert carrying them. *)
Lemma run_confirm_nonzero_exit_scores :
  let env_f :=
    mkEnv (fun _ => OConstructed StartOk) (fun _ => [])
          (fun _ => Some [(0, 6000000)])
          (fun _ => PExited 1 EmptyString "boom") (fun _ => RAgain) false in
  fst (run_confirm json_subset float_subset env_f 4990000000 init_st) =
    Ok (Some 0, Some 0) /\
  confirm_disabled_reason
    (snd (run_confirm json_subset float_subset env_f 4990000000 init_st)) = None /\
  nth_error (trace (snd (main json_subset float_subset env_f true false 1 init_st)))
    193 = Some (EPublish (build_alert_messages None 4990000000 6000000 0 0 "confirm")).
Proof. vm_compute. repeat split; reflexivity. Qed.

(** ** The weakest-precondition calculus *)

Lemma wp_bind : forall {A B} (m : M A) (k : A -> M B) Q E s,
  wp (bind m k) Q E s = wp m (fun a => wp (k a) Q E) E s.
Proof. intros. unfold wp, bind. destruct (m s) as [[a|e] s']; reflexivity. Qed.

Lemma wp_ret : forall {A} (a : A) Q E s, wp (ret a) Q E s = Q a s.
Proof. reflexivity. Qed.

Lemma wp_raise : forall {A} e (Q : A -> St -> Prop) E s, wp (raise e) Q E s = E e s.
Proof. reflexivity. Qed.

Lemma wp_lift : forall {A} (r : result A) Q E s,
  wp (lift r) Q E s = match r with Ok a => Q a s | Exc e => E e s end.
Proof. intros. destruct r; reflexivity. Qed.

Lemma wp_emit : forall e Q E s,
  wp (emit e) Q E s = Q tt (set_trace (trace s ++ [e])%list s).
Proof. reflexivity. Qed.

Lemma wp_try_catch : forall {A} (m : M A) h Q E s,
  wp (try_catch m h) Q E s = wp m Q (fun e s' => wp (h e) Q E s') s.
Proof. intros. unfold wp, try_catch. destruct (m s) as [[a|e] s']; reflexivity. Qed.

Lemma wp_try_finally : forall {A} (m : M A) f Q E s,
  wp (try_finally m f) Q E s =
  wp m (fun a s' => wp f (fun _ s'' => Q a s'') E s')
       (fun e s' => wp f (fun _ s'' => E e s'') E s') s.
Proof.
  intros. unfold wp, try_finally.
  destruct (m s) as [[a|e] s']; destruct (f s') as [[[]|e'] s'']; reflexivity.
Qed.

Lemma wp_weaken : forall {A} (m : M A) (Q Q' : A -> St -> Prop)
    (E E' : exn -> St -> Prop) s,
  wp m Q E s ->
  (forall a s', Q a s' -> Q' a s') -> (forall e s', E e s' -> E' e s') ->
  wp m Q' E' s.
Proof.
  intros A m Q Q' E E' s H HQ HE. unfold wp in *.
  destruct (m s) as [[a|e] s']; auto.
Qed.

(** ** The automata on appended traces *)

Lemma hw_run_snoc : forall t e,
  hw_run (t ++ [e])%list =
  match hw_run t with Some a => hw_step a e | None => None end.
Proof. intros. unfold hw_run. now rewrite fold_left_app. Qed.

Lemma brk_run_snoc : forall t e,
  brk_run (t ++ [e])%list =
  match brk_run t with Some w => brk_step w e | None => None end.
Proof. intros. unfold brk_run. now rewrite fold_left_app. Qed.

Lemma loop_inv_same : forall h s s',
  loop_inv h s -> trace s' = trace s ->
  confirm_disabled_reason s' = confirm_disabled_reason s -> loop_inv h s'.
Proof.
  intros h s s' [H1 [H2 H3]] Ht Hr. unfold loop_inv, reason_set in *.
  now rewrite Ht, Hr.
Qed.

Lemma loop_inv_neutral : forall h s e,
  loop_inv h s -> neutral e -> loop_inv h (set_trace (trace s ++ [e])%list s).
Proof.
  intros h s e [H1 [H2 H3]] [N1 [N2 N3]]. unfold loop_inv. cbn [trace set_trace].
  rewrite hw_run_snoc, brk_run_snoc, forallb_app, H1, H2, H3, N1, N2.
  cbn [forallb]. rewrite N3.
  unfold reason_set. simpl. auto.
Qed.

Lemma loop_inv_stop : forall h s,
  loop_inv h s -> loop_inv false (set_trace (trace s ++ [EStop])%list s).
Proof.
  intros h s [H1 [H2 H3]]. unfold loop_inv. cbn [trace set_trace].
  rewrite hw_run_snoc, brk_run_snoc, forallb_app, H1, H2, H3.
  unfold reason_set. simpl. auto.
Qed.

Lemma loop_inv_construct : forall s thr,
  loop_inv false s ->
  loop_inv true (set_trace (trace s ++ [EConstruct thr])%list s).
Proof.
  intros s thr [H1 [H2 H3]]. unfold loop_inv. cbn [trace set_trace].
  rewrite hw_run_snoc, brk_run_snoc, forallb_app, H1, H2, H3.
  unfold reason_set. simpl. auto.
Qed.

Lemma loop_inv_publish : forall h s a,
  loop_inv h s -> energy_ok (EPublish a) = true ->
  loop_inv h (set_trace (trace s ++ [EPublish a])%list s).
Proof.
  intros h s a Hi Ha. apply loop_inv_neutral; [exact Hi|].
  split; [intros []; reflexivity|split; [intros w; reflexivity|exact Ha]].
Qed.

Lemma any_inv_stop : forall s,
  any_inv s -> any_inv (set_trace (trace s ++ [EStop])%list s).
Proof. intros s [h Hi]. exists false. now apply (loop_inv_stop h). Qed.

Lemma neutral_tune : forall hz, neutral (ETune hz).
Proof. repeat split; intros []; reflexivity. Qed.
Lemma neutral_sleep : forall q, neutral (ESleep q).
Proof. repeat split; intros []; reflexivity. Qed.
Lemma neutral_start : neutral EStart.
Proof. repeat split; intros []; reflexivity. Qed.
Lemma neutral_start_fail : neutral EStartFail.
Proof. repeat split; intros []; reflexivity. Qed.
Lemma neutral_log : forall l,
  match l with LogWarnDisabled _ | LogConfirm _ _ _ => False | _ => True end ->
  neutral (ELog l).
Proof.
  intros l Hl. split; [intros []; reflexivity|split; [|reflexivity]].
  intros w. destruct l; try contradiction; reflexivity.
Qed.

Lemma energy_ok_energy_alert : forall g c b,
  energy_ok (EPublish (build_alert_messages g c b 0 0 "energy")) = true.
Proof. intros [[[la lo] al]|] c b; reflexivity. Qed.

Lemma energy_ok_confirm_alert : forall g c b p n,
  energy_ok (EPublish (build_alert_messages g c b p n "confirm")) = true.
Proof. intros [[[la lo] al]|] c b p n; reflexivity. Qed.

Lemma loop_inv_confirm_pair : forall s hz,
  loop_inv false s -> confirm_disabled_reason s = None ->
  hw_run ((trace s ++ [EConfirmRun hz]) ++ [EConfirmDone])%list =
    Some (mkHw false false) /\
  brk_run ((trace s ++ [EConfirmRun hz]) ++ [EConfirmDone])%list = Some false /\
  forallb energy_ok ((trace s ++ [EConfirmRun hz]) ++ [EConfirmDone])%list = true.
Proof.
  intros s hz [H1 [H2 H3]] Hr. unfold reason_set in H2. rewrite Hr in H2.
  rewrite !hw_run_snoc, !brk_run_snoc, !forallb_app, H1, H2, H3. simpl. auto.
Qed.

Lemma loop_inv_disable : forall h s r,
  loop_inv h s -> confirm_disabled_reason s = None ->
  loop_inv h (set_trace (trace (set_reason_st r s) ++ [ELog (LogWarnDisabled r)])%list
                        (set_reason_st r s)).
Proof.
  intros h s r [H1 [H2 H3]] Hr. unfold reason_set in H2. rewrite Hr in H2.
  unfold loop_inv. cbn [trace set_trace set_reason_st].
  rewrite hw_run_snoc, brk_run_snoc, forallb_app, H1, H2, H3.
  unfold reason_set. simpl. auto.
Qed.

Lemma loop_inv_log_confirm : forall h s hz p n,
  loop_inv h s -> confirm_disabled_reason s = None ->
  loop_inv h (set_trace (trace s ++ [ELog (LogConfirm hz p n)])%list s).
Proof.
  intros h s hz p n [H1 [H2 H3]] Hr. unfold reason_set in H2. rewrite Hr in H2.
  unfold loop_inv. cbn [trace set_trace].
  rewrite hw_run_snoc, brk_run_snoc, forallb_app, H1, H2, H3.
  unfold reason_set. simpl. rewrite Hr. auto.
Qed.

Create HintDb neutral_ev.
#[local] Hint Resolve neutral_tune neutral_sleep neutral_start neutral_start_fail : neutral_ev.
#[local] Hint Extern 1 (neutral (ELog _)) => apply neutral_log; exact I : neutral_ev.

Ltac inv_same H := eapply loop_inv_same; [exact H | reflexivity | reflexivity].
Ltac inv_neutral H :=
  apply loop_inv_neutral; [inv_same H | auto with neutral_ev].

Lemma wp_next_open : forall env Q E s,
  wp (next_open env) Q E s = Q (env_open env (n_open s)) (bump_open s).
Proof. reflexivity. Qed.
Lemma wp_next_map : forall env Q E s,
  wp (next_map env) Q E s = Q (env_map env (n_map s)) (bump_map s).
Proof. reflexivity. Qed.
Lemma wp_next_spectrum : forall env Q E s,
  wp (next_spectrum env) Q E s = Q (env_spectrum env (n_spec s)) (bump_spec s).
Proof. reflexivity. Qed.
Lemma wp_next_proc : forall env Q E s,
  wp (next_proc env) Q E s = Q (env_proc env (n_proc s)) (bump_proc s).
Proof. reflexivity. Qed.
Lemma wp_next_recv : forall env Q E s,
  wp (next_recv env) Q E s = Q (env_recv env (n_recv s)) (bump_recv s).
Proof. reflexivity. Qed.
Lemma wp_get_reason : forall Q E s,
  wp get_reason Q E s = Q (confirm_disabled_reason s) s.
Proof. reflexivity. Qed.
Lemma wp_set_reason : forall r Q E s,
  wp (set_reason r) Q E s = Q tt (set_reason_st r s).
Proof. reflexivity. Qed.
Lemma wp_get_gps : forall Q E s, wp get_gps Q E s = Q (last_sensor_gps s) s.
Proof. reflexivity. Qed.
Lemma wp_set_gps : forall g Q E s, wp (set_gps g) Q E s = Q tt (set_gps_st g s).
Proof. reflexivity. Qed.
Lemma wp_get_tb : forall Q E s, wp get_tb Q E s = Q (main_tb s) s.
Proof. reflexivity. Qed.
Lemma wp_set_tb : forall b Q E s, wp (set_tb b) Q E s = Q tt (set_tb_st b s).
Proof. reflexivity. Qed.

Ltac wp_simpl :=
  unfold sleep, tb_stop, tb_set_center, tb_get_latest_map, tb_get_latest_spectrum;
  repeat (first [ rewrite wp_bind | rewrite wp_ret | rewrite wp_emit
                | rewrite wp_raise | rewrite wp_lift | rewrite wp_next_open
                | rewrite wp_next_map | rewrite wp_next_spectrum
                | rewrite wp_next_proc | rewrite wp_next_recv
                | rewrite wp_get_reason | rewrite wp_set_reason
                | rewrite wp_get_gps | rewrite wp_set_gps | rewrite wp_get_tb
                | rewrite wp_set_tb ]; cbv beta iota).

Section Loop.

Variable json_loads : string -> option JValue.
Variable float_of_str : string -> option Q.
Variable env : Env.

Lemma InspectorScan_spec : forall thr s,
  loop_inv false s ->
  wp (InspectorScan env thr) (fun _ => loop_inv true) (fun _ => loop_inv false) s.
Proof.
  intros thr s H. unfold InspectorScan. wp_simpl.
  destruct (env_open env (n_open s)); wp_simpl.
  - inv_same H.
  - apply loop_inv_construct. inv_same H.
Qed.

Lemma tb_start_spec : forall o s,
  loop_inv true s ->
  wp (tb_start o) (fun _ => loop_inv true) (fun _ => loop_inv true) s.
Proof. intros [] s H; unfold tb_start; wp_simpl; inv_neutral H. Qed.

Lemma scores_of_spec : forall out (Q : option Q * option Q -> St -> Prop) E s,
  (forall p n, Q (Some p, Some n) s) -> (forall e, E e s) ->
  wp (scores_of json_loads float_of_str out) Q E s.
Proof.
  intros out Q E s HQ HE. unfold scores_of. wp_simpl.
  destruct (parse_scores json_loads float_of_str out) as [[p n]|e]; wp_simpl; auto.
Qed.

Lemma run_confirm_spec : forall hz s,
  loop_inv false s ->
  wp (run_confirm json_loads float_of_str env hz)
     (fun r s' => loop_inv false s' /\
        forall p n, r = (Some p, Some n) -> confirm_disabled_reason s' = None)
     (fun _ => loop_inv false) s.
Proof.
  intros hz s H. unfold run_confirm. wp_simpl.
  destruct (confirm_disabled_reason s) eqn:Hr.
  { wp_simpl. split; [exact H | discriminate]. }
  wp_simpl.
  destruct (loop_inv_confirm_pair s hz H Hr) as [P1 [P2 P3]].
  assert (H2 : loop_inv false
    (set_trace ((trace s ++ [EConfirmRun hz]) ++ [EConfirmDone])%list
       (bump_proc (set_trace (trace s ++ [EConfirmRun hz])%list s)))).
  { unfold loop_inv, reason_set. cbn [trace set_trace bump_proc confirm_disabled_reason].
    rewrite Hr. auto. }
  cbn [trace set_trace bump_proc] in *.
  assert (Hr2 : confirm_disabled_reason
    (set_trace ((trace s ++ [EConfirmRun hz]) ++ [EConfirmDone])%list
       (bump_proc (set_trace (trace s ++ [EConfirmRun hz])%list s))) = None)
    by exact Hr.
  destruct (env_proc env (n_proc (set_trace (trace s ++ [EConfirmRun hz])%list s)))
    as [|out|code out err].
  - unfold _disable_confirm. wp_simpl. rewrite Hr2. wp_simpl.
    split; [apply loop_inv_disable; assumption | discriminate].
  - apply scores_of_spec; [intros; split; auto | intros; exact H2].
  - destruct (_ && _)%bool.
    + unfold _disable_confirm. wp_simpl. rewrite Hr2. wp_simpl.
      split; [apply loop_inv_disable; assumption | discriminate].
    + apply scores_of_spec; [intros; split; auto | intros; exact H2].
Qed.

Lemma retry_loop_spec : forall thr left attempt s,
  loop_inv false s ->
  wp (retry_loop env thr attempt left) (fun _ => loop_inv true) (fun _ => any_inv) s.
Proof.
  intros thr left. induction left as [|left IH]; intros attempt s H; simpl retry_loop.
  { wp_simpl. exists false. exact H. }
  rewrite wp_bind. eapply wp_weaken; [apply InspectorScan_spec; exact H| |].
  2:{ intros e s1 H1. exists false. exact H1. }
  intros o s1 H1. rewrite wp_bind, wp_try_catch, wp_bind.
  eapply wp_weaken; [apply tb_start_spec; exact H1| |].
  - intros [] s2 H2. wp_simpl. exact H2.
  - intros e s2 H2. destruct e; wp_simpl; try (exists true; exact H2).
    apply IH. inv_neutral (loop_inv_neutral false _ _ (loop_inv_stop true s2 H2)
                             (neutral_log (LogOpenFail attempt) I)).
Qed.

Lemma warmup_channels_inv : forall h ms med s,
  loop_inv h s ->
  wp (warmup_channels env ms med) (fun _ => loop_inv h) (fun _ => loop_inv h) s.
Proof.
  intros h ms. induction ms as [|m ms IH]; intros med s H; simpl warmup_channels.
  { wp_simpl. exact H. }
  wp_simpl.
  pose proof (loop_inv_neutral _ _ _ H (neutral_tune (mhz_to_hz m))) as H1.
  pose proof (loop_inv_neutral _ _ _ H1 (neutral_sleep SETTLE_S)) as H2.
  pose proof (loop_inv_neutral _ _ _ H2 (neutral_sleep DWELL_S)) as H3.
  destruct (env_spectrum env _) as [|x xs]; [apply IH; inv_same H3|].
  destruct (py_median _); apply IH; inv_same H3.
Qed.

Lemma warmup_threshold_inv : forall h s,
  loop_inv h s ->
  wp (warmup_threshold env) (fun _ => loop_inv h) (fun _ => loop_inv h) s.
Proof.
  intros h s H. unfold warmup_threshold. rewrite wp_bind.
  assert (Hs : forall n med s0, loop_inv h s0 ->
    wp (warmup_sweeps env n med) (fun _ => loop_inv h) (fun _ => loop_inv h) s0).
  { intros n. induction n as [|n IHn]; intros med s0 H0.
    - wp_simpl. exact H0.
    - change (warmup_sweeps env (S n) med) with
        (medians' <- warmup_channels env ALL_CENTERS_MHZ med ;;
         warmup_sweeps env n medians').
      rewrite wp_bind. eapply wp_weaken; [apply warmup_channels_inv; exact H0| |auto].
      intros a s1 H1. apply IHn. exact H1. }
  eapply wp_weaken; [apply Hs; exact H| |auto].
  intros meds s1 H1. destruct meds; [wp_simpl; exact H1|].
  destruct (py_median _); wp_simpl; exact H1.
Qed.

Lemma poll_monitor_for_gps_inv : forall h b s,
  loop_inv h s ->
  wp (poll_monitor_for_gps json_loads float_of_str env b)
     (fun _ => loop_inv h) (fun _ => loop_inv h) s.
Proof.
  intros h b s H. unfold poll_monitor_for_gps.
  destruct b; simpl negb; cbv iota; wp_simpl; [|exact H].
  destruct (env_recv env (n_recv s)) as [| |msg]; wp_simpl; try inv_same H.
  destruct (json_loads msg) as [payload|]; wp_simpl; [|inv_same H].
  destruct (py_get payload "lat" JNull) as [lat|]; wp_simpl; [|inv_same H].
  destruct (py_get payload "lon" JNull) as [lon|]; wp_simpl; [|inv_same H].
  destruct (py_get payload "alt" (JNum 0)) as [alt|]; wp_simpl; [|inv_same H].
  destruct (is_valid_latlon float_of_str lat lon) as [ok|]; wp_simpl; [|inv_same H].
  destruct ok; wp_simpl; [|inv_same H].
  destruct (py_float float_of_str lat); wp_simpl; [|inv_same H].
  destruct (py_float float_of_str lon); wp_simpl; [|inv_same H].
  destruct (py_float float_of_str alt); wp_simpl; inv_same H.
Qed.

Lemma loop_inv_set_tb : forall h b s, loop_inv h s -> loop_inv h (set_tb_st b s).
Proof. intros h b s H. inv_same H. Qed.
Lemma loop_inv_bump_map : forall h s, loop_inv h s -> loop_inv h (bump_map s).
Proof. intros h s H. inv_same H. Qed.

Ltac inv_back :=
  match goal with
  | |- loop_inv _ (set_tb_st _ _) => apply loop_inv_set_tb; inv_back
  | |- loop_inv _ (bump_map _) => apply loop_inv_bump_map; inv_back
  | |- loop_inv false (set_trace (_ ++ [EStop])%list _) =>
      eapply loop_inv_stop; inv_back
  | |- loop_inv true (set_trace (_ ++ [EConstruct _])%list _) =>
      apply loop_inv_construct; inv_back
  | |- loop_inv _ (set_trace (_ ++ [EPublish _])%list _) =>
      apply loop_inv_publish;
      [inv_back | first [apply energy_ok_confirm_alert | apply energy_ok_energy_alert]]
  | |- loop_inv _ (set_trace (_ ++ [ELog (LogConfirm _ _ _)])%list _) =>
      apply loop_inv_log_confirm; [inv_back | assumption]
  | |- loop_inv _ (set_trace (_ ++ [_])%list _) =>
      apply loop_inv_neutral; [inv_back | auto with neutral_ev]
  | _ => cbv beta in *; eassumption
  end.

Ltac reacquire :=
  unfold start_tb_with_retry;
  eapply wp_weaken;
  [ apply retry_loop_spec; inv_back
  | intros ? ? ?; cbv beta; wp_simpl; inv_back
  | intros ? ? ?; assumption ].

Lemma confirm_and_reacquire_spec : forall thr pub debug hz bw s,
  loop_inv true s ->
  wp (confirm_and_reacquire json_loads float_of_str env thr pub debug hz bw)
     (fun _ => loop_inv true) (fun _ => any_inv) s.
Proof.
  intros thr pub debug hz bw s H. unfold confirm_and_reacquire. wp_simpl.
  eapply wp_weaken;
    [apply run_confirm_spec; inv_back | | intros e s1 H1; exists false; exact H1].
  intros r s1 [H1 Hr].
  destruct r as [[p|] [n|]]; wp_simpl; try reacquire.
  specialize (Hr p n eq_refl).
  destruct pub; [unfold publish_alert|]; wp_simpl;
    destruct debug; wp_simpl; reacquire.
Qed.

Lemma scan_channel_spec : forall thr pub debug mon mhz s,
  loop_inv true s ->
  wp (scan_channel json_loads float_of_str env thr pub debug mon mhz)
     (fun _ => loop_inv true) (fun _ => any_inv) s.
Proof.
  intros thr pub debug mon mhz s H. unfold scan_channel. cbv zeta.
  rewrite wp_bind.
  eapply wp_weaken;
    [apply poll_monitor_for_gps_inv; exact H | | intros e s1 H1; exists true; exact H1].
  intros [] s1 H1. wp_simpl.
  destruct (parse_rf_map _ _) as [|c0 rest]; wp_simpl; [inv_back|].
  destruct (py_max_by_bw _) as [c|e]; wp_simpl; [|exists true; inv_back].
  destruct pub; [unfold publish_alert|]; wp_simpl;
    (eapply wp_weaken;
       [apply confirm_and_reacquire_spec; inv_back | auto | auto]).
Qed.

Lemma scan_loop_S : forall thr pub debug mon fuel k,
  scan_loop json_loads float_of_str env thr pub debug mon (S fuel) k =
  (scan_channel json_loads float_of_str env thr pub debug mon
     (nth (k mod length ALL_CENTERS_MHZ) ALL_CENTERS_MHZ 0%Z) ;;
   scan_loop json_loads float_of_str env thr pub debug mon fuel (S k)).
Proof. reflexivity. Qed.

Lemma scan_loop_spec : forall thr pub debug mon fuel k s,
  loop_inv true s ->
  wp (scan_loop json_loads float_of_str env thr pub debug mon fuel k)
     (fun _ => loop_inv true) (fun _ => any_inv) s.
Proof.
  intros thr pub debug mon fuel. induction fuel as [|fuel IH]; intros k s H.
  - exact H.
  - rewrite scan_loop_S, wp_bind.
    eapply wp_weaken; [apply scan_channel_spec; exact H | | auto].
    intros [] s1 H1. apply IH. exact H1.
Qed.

Lemma main_spec : forall zmq debug visits s,
  loop_inv false s ->
  wp (main json_loads float_of_str env zmq debug visits)
     (fun _ => any_inv) (fun _ => any_inv) s.
Proof.
  intros zmq debug visits s H. unfold main. cbv zeta. rewrite wp_bind.
  eapply wp_weaken;
    [apply InspectorScan_spec; exact H | | intros e s1 H1; exists false; exact H1].
  intros o s1 H1. wp_simpl.
  eapply wp_weaken;
    [apply tb_start_spec; inv_back | | intros e s2 H2; exists true; exact H2].
  intros [] s2 H2. cbv beta. rewrite wp_bind.
  eapply wp_weaken with (Q := fun _ => loop_inv true) (E := fun _ => any_inv).
  - destruct (_ && _)%bool; wp_simpl; [|exact H2].
    eapply wp_weaken;
      [apply warmup_threshold_inv; exact H2 | | intros e s3 H3; exists true; exact H3].
    intros t s3 H3. cbv beta. destruct debug; wp_simpl; reacquire.
  - intros thr s3 H3. rewrite wp_try_finally.
    eapply wp_weaken; [apply scan_loop_spec; exact H3 | |].
    + intros [] s4 H4. wp_simpl.
      destruct (main_tb s4); wp_simpl; [exists false; inv_back | exists true; exact H4].
    + intros e s4 [h H4]. wp_simpl.
      destruct (main_tb s4); wp_simpl; [exists false; inv_back | exists h; exact H4].
  - auto.
Qed.

End Loop.

(** ** The loop as a whole *)

Lemma init_loop_inv : loop_inv false init_st.
Proof. repeat split. Qed.

Lemma main_any_inv : forall json_loads float_of_str env zmq debug visits,
  any_inv (snd (main json_loads float_of_str env zmq debug visits init_st)).
Proof.
  intros json_loads float_of_str env zmq debug visits.
  pose proof (main_spec json_loads float_of_str env zmq debug visits init_st
                init_loop_inv) as H.
  unfold wp in H.
  destruct (main json_loads float_of_str env zmq debug visits init_st)
    as [[a|e] s']; exact H.
Qed.

Lemma hw_fold_none : forall t,
  fold_left (fun o e => match o with Some a => hw_step a e | None => None end)
            t None = None.
Proof. induction t; simpl; auto. Qed.

Lemma hw_run_split : forall t1 e t2 b,
  hw_run (t1 ++ e :: t2)%list = Some b ->
  exists a, hw_run t1 = Some a /\ hw_step a e <> None.
Proof.
  intros t1 e t2 b H. unfold hw_run in *. rewrite fold_left_app in H.
  destruct (fold_left _ t1 (Some (mkHw false false))) as [a|].
  - exists a. split; [reflexivity|]. intros He. simpl in H.
    rewrite He, hw_fold_none in H. discriminate.
  - simpl in H. rewrite hw_fold_none in H. discriminate.
Qed.

(** C1: hardware exclusivity.  Whenever the classifier is started
    ([EConfirmRun]) or a radio pipeline is constructed ([EConstruct]) in any
    run of [main], no pipeline is open at that moment (every construction
    has been followed by [stop]) and no classifier run is in progress (every
    [EConfirmRun] has been followed by [EConfirmDone]).  So no confirmation
    overlaps an open radio session and no two confirmations overlap. *)
Theorem main_confirm_exclusive :
  forall json_loads float_of_str env zmq debug visits t1 e t2,
  trace (snd (main json_loads float_of_str env zmq debug visits init_st)) =
    (t1 ++ e :: t2)%list ->
  match e with
  | EConfirmRun _ | EConstruct _ => hw_run t1 = Some (mkHw false false)
  | _ => True
  end.
Proof.
  intros json_loads float_of_str env zmq debug visits t1 e t2 Ht.
  destruct (main_any_inv json_loads float_of_str env zmq debug visits)
    as [h [Hhw _]].
  rewrite Ht in Hhw.
  destruct (hw_run_split t1 e t2 _ Hhw) as [[held conf] [Ha He]].
  destruct e; auto; simpl in He;
    destruct held, conf; simpl in He; try congruence; exact Ha.
Qed.

Lemma main_confirm_exclusive_witness :
  trace (snd (main json_subset float_subset env_exit1 true false 1 init_st)) =
    (firstn 190 (trace (snd (main json_subset float_subset env_exit1 true false 1 init_st)))
     ++ EConfirmRun 4990000000
     :: skipn 191 (trace (snd (main json_subset float_subset env_exit1 true false 1 init_st))))%list
  /\
  hw_run (firstn 190 (trace (snd (main json_subset float_subset env_exit1 true false 1 init_st))))
    = Some (mkHw false false).
Proof.
  assert (H : trace (snd (main json_subset float_subset env_exit1 true false 1 init_st)) =
    (firstn 190 (trace (snd (main json_subset float_subset env_exit1 true false 1 init_st)))
     ++ EConfirmRun 4990000000
     :: skipn 191 (trace (snd (main json_subset float_subset env_exit1 true false 1 init_st))))%list)
    by (vm_compute; reflexivity).
  split; [exact H|].
  exact (main_confirm_exclusive json_subset float_subset env_exit1 true false 1 _
           (EConfirmRun 4990000000) _ H).
Defined.

(** C2: the confirmation breaker.  Once a reason is recorded, a later
    [_disable_confirm] keeps the first reason and logs nothing, and
    [run_confirm] returns [(None, None)] at once, leaving the state (and so
    the trace) untouched: no subprocess is started.  In every run of [main]
    the breaker automaton accepts the trace and ends in the state of the
    flag: the disable warning is printed exactly once if the breaker is set
    at the end and never otherwise, and after it no classifier run starts
    and no confirmation scores are reported. *)
Theorem confirm_breaker_sticky : forall json_loads float_of_str env,
  (forall r r' s,
     _disable_confirm r' (set_reason_st r s) = (Ok tt, set_reason_st r s)) /\
  (forall r hz s,
     run_confirm json_loads float_of_str env hz (set_reason_st r s) =
       (Ok (None, None), set_reason_st r s)) /\
  (forall zmq debug visits,
     brk_run (trace (snd (main json_loads float_of_str env zmq debug visits init_st))) =
       Some (reason_set (snd (main json_loads float_of_str env zmq debug visits init_st)))).
Proof.
  intros json_loads float_of_str env. split; [|split].
  - intros r r' s. reflexivity.
  - intros r hz s. reflexivity.
  - intros zmq debug visits.
    destruct (main_any_inv json_loads float_of_str env zmq debug visits)
      as [h [_ [Hb _]]].
    exact Hb.
Qed.

(** With the classifier missing, three channel visits with a signal each
    start the classifier once and print the warning once. *)
Example breaker_example :
  count_events is_warn
    (trace (snd (main json_subset float_subset env_no_suscli true false 3 init_st))) = 1%nat /\
  count_events is_confirm_run
    (trace (snd (main json_subset float_subset env_no_suscli true false 3 init_st))) = 1%nat /\
  n_proc (snd (main json_subset float_subset env_no_suscli true false 3 init_st)) = 1%nat.
Proof. vm_compute. repeat split; reflexivity. Qed.

(** C10: every published alert whose Signal Info names the "energy" stage
    carries PAL and NTSC confidences of zero, in every run of [main]. *)
Theorem main_energy_alerts_zero :
  forall json_loads float_of_str env zmq debug visits a si,
  In (EPublish a) (trace (snd (main json_loads float_of_str env zmq debug visits init_st))) ->
  In (SignalInfoMsg si) a -> si_source si = "energy" ->
  si_pal_conf si == 0 /\ si_ntsc_conf si == 0.
Proof.
  intros json_loads float_of_str env zmq debug visits a si Ha Hsi Hsrc.
  destruct (main_any_inv json_loads float_of_str env zmq debug visits)
    as [h [_ [_ He]]].
  rewrite forallb_forall in He. specialize (He _ Ha). simpl in He.
  rewrite forallb_forall in He. specialize (He _ Hsi). simpl in He.
  rewrite Hsrc in He. simpl in He.
  apply andb_prop in He. destruct He as [Hp Hn].
  split; apply Qeq_bool_iff; assumption.
Qed.

Lemma main_energy_alerts_zero_witness :
  nth_error (trace (snd (main json_subset float_subset env_exit1 true false 1 init_st))) 187 =
    Some (EPublish (build_alert_messages None 4990000000 6000000 0 0 "energy")) /\
  0 == 0 /\ 0 == 0.
Proof.
  assert (H : nth_error (trace (snd (main json_subset float_subset env_exit1 true false 1 init_st))) 187 =
    Some (EPublish (build_alert_messages None 4990000000 6000000 0 0 "energy")))
    by (vm_compute; reflexivity).
  split; [exact H|].
  exact (main_energy_alerts_zero json_subset float_subset env_exit1 true false 1
           (build_alert_messages None 4990000000 6000000 0 0 "energy")
           (mkSignalInfo "energy" 4990000000 6000000 0 0)
           (nth_error_In _ _ H)
           ltac:(vm_compute; right; right; right; left; reflexivity)
           eq_refl).
Defined.

Lemma retry_loop_unfold : forall env thr attempt left,
  retry_loop env thr attempt (S left) =
  (tb <- InspectorScan env thr ;;
   r <- try_catch (tb_start tb ;; ret (Some tb))
          (fun e =>
             match e with
             | RuntimeError _ =>
                 tb_stop ;;
                 emit (ELog (LogOpenFail attempt)) ;;
                 sleep REOPEN_DELAY_S ;;
                 ret None
             | _ => raise e
             end) ;;
   match r with
   | Some tb' => ret tb'
   | None => retry_loop env thr (S attempt) left
   end).
Proof. reflexivity. Qed.

Lemma retry_loop_fail_step : forall env thr attempt left s,
  env_open env (n_open s) = OConstructed StartRuntimeError ->
  retry_loop env thr attempt (S left) s =
  retry_loop env thr (S attempt) left
    (set_trace (trace s ++ fail_events thr attempt)%list (bump_open s)).
Proof.
  intros env thr attempt left s H.
  rewrite retry_loop_unfold.
  unfold bind at 1, InspectorScan, bind at 1, next_open.
  rewrite H. cbn -[retry_loop].
  destruct s; unfold set_trace, bump_open; cbn -[retry_loop].
  now rewrite <- !app_assoc.
Qed.

Lemma retry_loop_step_construct_error : forall env thr attempt left s,
  env_open env (n_open s) = OConstructError ->
  retry_loop env thr attempt (S left) s = (Exc HwError, bump_open s).
Proof.
  intros env thr attempt left s H. rewrite retry_loop_unfold.
  unfold bind at 1, InspectorScan, bind at 1, next_open. rewrite H. reflexivity.
Qed.

Lemma retry_loop_step_ok : forall env thr attempt left s,
  env_open env (n_open s) = OConstructed StartOk ->
  retry_loop env thr attempt (S left) s =
  (Ok StartOk, set_trace (trace s ++ [EConstruct thr; EStart])%list (bump_open s)).
Proof.
  intros env thr attempt left s H. rewrite retry_loop_unfold.
  unfold bind at 1, InspectorScan, bind at 1, next_open. rewrite H. cbn -[retry_loop].
  destruct s. unfold set_trace, bump_open. cbn. now rewrite <- app_assoc.
Qed.

Lemma retry_loop_step_error : forall env thr attempt left s,
  env_open env (n_open s) = OConstructed StartError ->
  retry_loop env thr attempt (S left) s =
  (Exc HwError, set_trace (trace s ++ [EConstruct thr; EStartFail])%list (bump_open s)).
Proof.
  intros env thr attempt left s H. rewrite retry_loop_unfold.
  unfold bind at 1, InspectorScan, bind at 1, next_open. rewrite H. cbn -[retry_loop].
  destruct s. unfold set_trace, bump_open. cbn. now rewrite <- app_assoc.
Qed.

Lemma retry_loop_failures : forall env thr k attempt left s,
  (forall i, (i < k)%nat -> env_open env (n_open s + i) = OConstructed StartRuntimeError) ->
  exists s',
    retry_loop env thr attempt (k + left) s = retry_loop env thr (attempt + k) left s' /\
    trace s' = (trace s ++ failures thr attempt k)%list /\
    n_open s' = (n_open s + k)%nat.
Proof.
  intros env thr k. induction k as [|k IH]; intros attempt left s H.
  - exists s. rewrite Nat.add_0_r. unfold failures. simpl. rewrite app_nil_r. auto.
  - change (S k + left)%nat with (S (k + left)).
    rewrite retry_loop_fail_step
      by (rewrite <- (Nat.add_0_r (n_open s)); apply H; lia).
    destruct (IH (S attempt) left
                (set_trace (trace s ++ fail_events thr attempt)%list (bump_open s)))
      as [s' [E1 [E2 E3]]].
    { intros i Hi. cbn [n_open set_trace bump_open].
      replace (S (n_open s) + i)%nat with (n_open s + S i)%nat by lia.
      apply H. lia. }
    exists s'. split; [|split].
    + rewrite E1. f_equal. lia.
    + rewrite E2. cbn [trace set_trace]. unfold failures. cbn [seq map concat].
      now rewrite app_assoc.
    + rewrite E3. cbn [n_open set_trace bump_open]. lia.
Qed.

Lemma scan_loop_raise : forall json_loads float_of_str env thr pub debug mon fuel k s e s1,
  scan_channel json_loads float_of_str env thr pub debug mon
    (nth (k mod length ALL_CENTERS_MHZ) ALL_CENTERS_MHZ 0%Z) s = (Exc e, s1) ->
  scan_loop json_loads float_of_str env thr pub debug mon (S fuel) k s = (Exc e, s1).
Proof.
  intros. rewrite scan_loop_S. unfold bind at 1. rewrite H. reflexivity.
Qed.

Lemma bind_exc : forall {A B} (m : M A) (k : A -> M B) s e s',
  m s = (Exc e, s') -> bind m k s = (Exc e, s').
Proof. intros A B m k s e s' H. unfold bind. now rewrite H. Qed.

Lemma bind_ok : forall {A B} (m : M A) (k : A -> M B) s a s',
  m s = (Ok a, s') -> bind m k s = k a s'.
Proof. intros A B m k s a s' H. unfold bind. now rewrite H. Qed.

Lemma main_first_open : forall json_loads float_of_str env zmq debug visits,
  (env_open env 0 = OConstructError ->
   fst (main json_loads float_of_str env zmq debug visits init_st) = Exc HwError) /\
  (env_open env 0 = OConstructed StartRuntimeError ->
   fst (main json_loads float_of_str env zmq debug visits init_st) =
     Exc (RuntimeError "start") /\
   n_open (snd (main json_loads float_of_str env zmq debug visits init_st)) = 1%nat).
Proof.
  intros json_loads float_of_str env zmq debug visits. unfold main. cbv zeta.
  split; intros H.
  - erewrite bind_exc; [reflexivity|].
    unfold InspectorScan. erewrite bind_ok; [|reflexivity].
    cbn [n_open init_st]. rewrite H. reflexivity.
  - erewrite bind_ok.
    2:{ unfold InspectorScan. erewrite bind_ok; [|reflexivity].
        cbn [n_open init_st]. rewrite H. reflexivity. }
    erewrite bind_ok; [|reflexivity].
    erewrite bind_exc; [|reflexivity].
    split; reflexivity.
Qed.

Lemma run_confirm_failed_eq : forall json_loads float_of_str env hz s out pal ntsc,
  confirm_disabled_reason s = None ->
  failed_attempt (env_proc env (n_proc s)) out ->
  parse_scores json_loads float_of_str out = Ok (pal, ntsc) ->
  run_confirm json_loads float_of_str env hz s =
    (Ok (Some pal, Some ntsc),
     set_trace (trace s ++ [EConfirmRun hz; EConfirmDone])%list (bump_proc s)).
Proof.
  intros json_loads float_of_str env hz s out pal ntsc Hr Hf Hp.
  unfold run_confirm. erewrite bind_ok; [|reflexivity]. rewrite Hr.
  erewrite bind_ok; [|reflexivity]. erewrite bind_ok; [|reflexivity].
  erewrite bind_ok; [|reflexivity].
  cbn [n_proc set_trace].
  assert (Hs : forall s', scores_of json_loads float_of_str out s' = (Ok (Some pal, Some ntsc), s')).
  { intros s'. unfold scores_of. rewrite (bind_ok _ _ s' (pal, ntsc) s'); [reflexivity|].
    unfold lift. now rewrite Hp. }
  destruct Hf as [Ho | [code [err [Ho [Hc [Hu1 Hu2]]]]]]; rewrite Ho.
  - rewrite Hs. destruct s. unfold set_trace, bump_proc. cbn. now rewrite <- app_assoc.
  - rewrite Hu1, Hu2. cbn [orb andb]. rewrite andb_false_r. rewrite Hs.
    destruct s. unfold set_trace, bump_proc. cbn. now rewrite <- app_assoc.
Qed.

Lemma St_ext : forall s1 s2,
  confirm_disabled_reason s1 = confirm_disabled_reason s2 ->
  last_sensor_gps s1 = last_sensor_gps s2 -> main_tb s1 = main_tb s2 ->
  trace s1 = trace s2 -> n_open s1 = n_open s2 -> n_spec s1 = n_spec s2 ->
  n_map s1 = n_map s2 -> n_proc s1 = n_proc s2 -> n_recv s1 = n_recv s2 ->
  s1 = s2.
Proof. intros [] []; cbn; intros; subst; reflexivity. Qed.

Lemma M_state_eq : forall {A} (m : M A) s1 s2, s1 = s2 -> m s1 = m s2.
Proof. intros A m s1 s2 ->. reflexivity. Qed.

(** C4 (amended): a classifier run that timed out, or exited with a
    status other than 0 without an "unknown command" message, does not
    disable confirmation.  Its captured standard output is parsed as usual
    and [run_confirm] returns the scores [parse_scores] finds there.  These
    are 0.0 and 0.0 when no line decodes.  The loop then logs these scores,
    publishes a "confirm" alert carrying them when publishing is on, sleeps,
    and goes on to reopen the radio exactly as after a successful
    classification. *)
Theorem run_confirm_failed_attempt :
  forall json_loads float_of_str env thr pub debug hz bw s out pal ntsc,
  confirm_disabled_reason s = None ->
  failed_attempt (env_proc env (n_proc s)) out ->
  parse_scores json_loads float_of_str out = Ok (pal, ntsc) ->
  run_confirm json_loads float_of_str env hz s =
    (Ok (Some pal, Some ntsc),
     set_trace (trace s ++ [EConfirmRun hz; EConfirmDone])%list (bump_proc s)) /\
  confirm_and_reacquire json_loads float_of_str env thr pub debug hz bw s =
    (_ <- start_tb_with_retry env thr ;; set_tb true)
      (set_trace
         (trace s ++
          [EStop; ESleep COOLDOWN_S; EConfirmRun hz; EConfirmDone;
           ELog (LogConfirm hz pal ntsc)] ++
          (if pub then
             [EPublish (build_alert_messages (last_sensor_gps s) hz bw pal ntsc "confirm")]
           else []) ++
          (if debug then [ELog (LogDebugConfirm hz bw pal ntsc)] else []) ++
          [ESleep COOLDOWN_S])%list
         (bump_proc (set_tb_st false s))).
Proof.
  intros json_loads float_of_str env thr pub debug hz bw s out pal ntsc Hr Hf Hp.
  split; [exact (run_confirm_failed_eq json_loads float_of_str env hz s out pal ntsc Hr Hf Hp)|].
  unfold confirm_and_reacquire.
  do 3 (erewrite bind_ok; [|reflexivity]; cbv beta).
  erewrite bind_ok;
    [|apply run_confirm_failed_eq with (out := out); [exact Hr | exact Hf | exact Hp]].
  cbv beta iota.
  destruct pub, debug;
    (erewrite bind_ok; [|reflexivity]); cbv beta;
    (erewrite bind_ok; [|reflexivity]); cbv beta;
    apply M_state_eq; apply St_ext;
    cbn [confirm_disabled_reason last_sensor_gps main_tb trace n_open n_spec n_map
         n_proc n_recv set_trace bump_proc set_tb_st];
    try reflexivity; now repeat rewrite <- app_assoc.
Qed.

Lemma run_confirm_failed_attempt_witness :
  run_confirm json_subset float_subset env_exit1 4990000000 init_st =
    (Ok (Some 0, Some 0),
     set_trace (trace init_st ++ [EConfirmRun 4990000000; EConfirmDone])%list
       (bump_proc init_st)) /\
  confirm_and_reacquire json_subset float_subset env_exit1 THRESHOLD_DB true false
    4990000000 6000000 init_st =
    (_ <- start_tb_with_retry env_exit1 THRESHOLD_DB ;; set_tb true)
      (set_trace
         (trace init_st ++
          [EStop; ESleep COOLDOWN_S; EConfirmRun 4990000000; EConfirmDone;
           ELog (LogConfirm 4990000000 0 0)] ++
          [EPublish (build_alert_messages (last_sensor_gps init_st) 4990000000 6000000
                       0 0 "confirm")] ++
          [] ++ [ESleep COOLDOWN_S])%list
         (bump_proc (set_tb_st false init_st))).
Proof.
  assert (Hf : failed_attempt (env_proc env_exit1 (n_proc init_st)) EmptyString).
  { right. exists 1%Z, "boom". split; [reflexivity|].
    split; [discriminate|split; vm_compute; reflexivity]. }
  assert (Hp : parse_scores json_subset float_subset EmptyString = Ok (0, 0))
    by (vm_compute; reflexivity).
  exact (run_confirm_failed_attempt json_subset float_subset env_exit1 THRESHOLD_DB
           true false 4990000000 6000000 init_st EmptyString 0 0 eq_refl Hf Hp).
Defined.

(** ** The candidate of a channel visit *)

Lemma ext_snoc : forall hz bw g t0 s e,
  ext_cand hz bw g t0 s -> cand_event hz bw g e ->
  ext_cand hz bw g t0 (set_trace (trace s ++ [e])%list s).
Proof.
  intros hz bw g t0 s e [rest [Ht [Hf Hg]]] He.
  exists (rest ++ [e])%list. cbn [trace set_trace last_sensor_gps].
  rewrite Ht, app_assoc. split; [reflexivity|split; [|exact Hg]].
  apply Forall_app. auto.
Qed.

Lemma ext_publish : forall hz bw g t0 s pal ntsc,
  ext_cand hz bw g t0 s ->
  ext_cand hz bw g t0
    (set_trace (trace s ++
       [EPublish (build_alert_messages (last_sensor_gps s) hz bw pal ntsc "confirm")])%list s).
Proof.
  intros hz bw g t0 s pal ntsc H. apply ext_snoc; [exact H|].
  destruct H as [rest [_ [_ Hg]]]. rewrite Hg. exists pal, ntsc. reflexivity.
Qed.

Lemma ext_same : forall hz bw g t0 s s',
  ext_cand hz bw g t0 s -> trace s' = trace s -> last_sensor_gps s' = last_sensor_gps s ->
  ext_cand hz bw g t0 s'.
Proof.
  intros hz bw g t0 s s' [rest [Ht [Hf Hg]]] E1 E2.
  exists rest. rewrite E1, E2. auto.
Qed.

Ltac ext_back :=
  match goal with
  | |- ext_cand _ _ _ _ (set_tb_st _ ?X) =>
      apply (ext_same _ _ _ _ X); [ext_back | reflexivity | reflexivity]
  | |- ext_cand _ _ _ _ (bump_open ?X) =>
      apply (ext_same _ _ _ _ X); [ext_back | reflexivity | reflexivity]
  | |- ext_cand _ _ _ _ (bump_proc ?X) =>
      apply (ext_same _ _ _ _ X); [ext_back | reflexivity | reflexivity]
  | |- ext_cand _ _ _ _ (set_reason_st _ ?X) =>
      apply (ext_same _ _ _ _ X); [ext_back | reflexivity | reflexivity]
  | |- ext_cand _ _ _ _ (set_trace (_ ++ [EPublish _])%list _) =>
      apply ext_publish; ext_back
  | |- ext_cand _ _ _ _ (set_trace (_ ++ [_])%list _) =>
      apply ext_snoc; [ext_back | cbn [cand_event]; first [exact I | reflexivity]]
  | _ => cbv beta in *; eassumption
  end.

Section Candidate.

Variable json_loads : string -> option JValue.
Variable float_of_str : string -> option Q.
Variable env : Env.
Variables (hz bw : Q) (g : option (Q * Q * Q)) (t0 : list event).

Lemma retry_loop_ext : forall thr left attempt s,
  ext_cand hz bw g t0 s ->
  wp (retry_loop env thr attempt left)
     (fun _ => ext_cand hz bw g t0) (fun _ => ext_cand hz bw g t0) s.
Proof.
  intros thr left. induction left as [|left IH]; intros attempt s H; simpl retry_loop.
  { wp_simpl. exact H. }
  unfold InspectorScan. wp_simpl.
  destruct (env_open env (n_open s)) as [|o]; wp_simpl; [ext_back|].
  rewrite wp_try_catch, wp_bind.
  destruct o; unfold tb_start; wp_simpl; [ext_back| |ext_back].
  apply IH. ext_back.
Qed.

Lemma run_confirm_ext : forall s,
  ext_cand hz bw g t0 s ->
  wp (run_confirm json_loads float_of_str env hz)
     (fun _ => ext_cand hz bw g t0) (fun _ => ext_cand hz bw g t0) s.
Proof.
  intros s H. unfold run_confirm. wp_simpl.
  destruct (confirm_disabled_reason s) eqn:Hr; wp_simpl; [exact H|].
  destruct (env_proc env _) as [|out|code out err].
  - unfold _disable_confirm. wp_simpl.
    destruct (confirm_disabled_reason _); wp_simpl; ext_back.
  - apply scores_of_spec; intros; ext_back.
  - destruct (_ && _)%bool.
    + unfold _disable_confirm. wp_simpl.
      destruct (confirm_disabled_reason _); wp_simpl; ext_back.
    + apply scores_of_spec; intros; ext_back.
Qed.

Lemma confirm_and_reacquire_ext : forall thr pub debug s,
  (trace s ++ [EStop])%list = t0 -> last_sensor_gps s = g ->
  wp (confirm_and_reacquire json_loads float_of_str env thr pub debug hz bw)
     (fun _ => ext_cand hz bw g t0) (fun _ => ext_cand hz bw g t0) s.
Proof.
  intros thr pub debug s Ht Hg. unfold confirm_and_reacquire. wp_simpl.
  assert (H0 : ext_cand hz bw g t0 (set_trace (trace s ++ [EStop])%list s)).
  { exists []. rewrite app_nil_r, Ht. cbn [trace set_trace last_sensor_gps]. auto. }
  eapply wp_weaken; [apply run_confirm_ext; ext_back | |auto].
  intros r s1 H1.
  destruct r as [[p|] [n|]]; wp_simpl;
    try (destruct pub; [unfold publish_alert|]; wp_simpl; destruct debug; wp_simpl);
    unfold start_tb_with_retry;
    (eapply wp_weaken;
       [apply retry_loop_ext; ext_back | intros ? ? ?; cbv beta; wp_simpl; ext_back | auto]).
Qed.

End Candidate.

Lemma fold_max_bw : forall (rest : list (Q * Q)) (b : Q * Q),
  In (fold_left (fun best x => if Qlt_bool (snd best) (snd x) then x else best) rest b)
     (b :: rest) /\
  forall y, In y (b :: rest) ->
    snd y <= snd (fold_left (fun best x => if Qlt_bool (snd best) (snd x) then x else best)
                            rest b).
Proof.
  induction rest as [|a rest IH]; intros b; cbn [fold_left].
  - split; [left; reflexivity|]. intros y [<-|[]]. apply Qle_refl.
  - unfold Qlt_bool. destruct (Qle_bool (snd a) (snd b)) eqn:E; cbn [negb].
    + apply Qle_bool_iff in E. destruct (IH b) as [Hin Hmax]. split.
      * destruct Hin as [Hin|Hin]; [left; exact Hin|right; right; exact Hin].
      * intros y [<-|[<-|Hy]].
        -- apply Hmax. left. reflexivity.
        -- apply Qle_trans with (snd b); [exact E|apply Hmax; left; reflexivity].
        -- apply Hmax. right. exact Hy.
    + assert (E' : snd b < snd a).
      { apply Qnot_le_lt. intros Hle. apply Qle_bool_iff in Hle. congruence. }
      destruct (IH a) as [Hin Hmax]. split; [right; exact Hin|].
      intros y [<-|Hy].
      * apply Qle_trans with (snd a); [apply Qlt_le_weak; exact E'|].
        apply Hmax. left. reflexivity.
      * apply Hmax. exact Hy.
Qed.

Lemma py_max_by_bw_max : forall x rest,
  exists c, py_max_by_bw (x :: rest) = Ok c /\ In c (x :: rest) /\
    forall y, In y (x :: rest) -> snd y <= snd c.
Proof.
  intros x rest. eexists. split; [reflexivity|]. apply fold_max_bw.
Qed.

Lemma wp_ok_eq : forall {A} (m : M A) Q E s a s',
  m s = (Ok a, s') -> wp m Q E s = Q a s'.
Proof. intros A m Q E s a s' H. unfold wp. now rewrite H. Qed.

(** C7: one channel visit with a non-empty detection report.  The
    candidate is a pair of largest bandwidth of the report.  The visit
    prints the whole report, publishes an "energy" alert for the candidate
    when publishing is on, and only then stops the radio.  Everything after
    that is the confirmation of the candidate: the classifier runs on the
    candidate's frequency only, and every later alert of the visit is a
    "confirm" alert for the candidate. *)
Theorem scan_channel_candidate :
  forall json_loads float_of_str env thr pub debug mon mhz s s1,
  poll_monitor_for_gps json_loads float_of_str env mon s = (Ok tt, s1) ->
  parse_rf_map (env_map env (n_map s1)) (mhz_to_hz mhz) <> [] ->
  exists cand rest,
    py_max_by_bw (parse_rf_map (env_map env (n_map s1)) (mhz_to_hz mhz)) = Ok cand /\
    In cand (parse_rf_map (env_map env (n_map s1)) (mhz_to_hz mhz)) /\
    (forall x, In x (parse_rf_map (env_map env (n_map s1)) (mhz_to_hz mhz)) ->
       snd x <= snd cand) /\
    trace (snd (scan_channel json_loads float_of_str env thr pub debug mon mhz s)) =
      (trace s1 ++
       [ETune (mhz_to_hz mhz); ESleep SETTLE_S; ESleep DWELL_S;
        ELog (LogSignals mhz (parse_rf_map (env_map env (n_map s1)) (mhz_to_hz mhz)))] ++
       (if pub then
          [EPublish (build_alert_messages (last_sensor_gps s1) (fst cand) (snd cand)
                       0 0 "energy")]
        else []) ++
       EStop :: rest)%list /\
    Forall (cand_event (fst cand) (snd cand) (last_sensor_gps s1)) rest.
Proof.
  intros json_loads float_of_str env thr pub debug mon mhz s s1 Hpoll Hne.
  destruct (parse_rf_map (env_map env (n_map s1)) (mhz_to_hz mhz)) as [|x xs] eqn:Hsig;
    [congruence|].
  destruct (py_max_by_bw_max x xs) as [c [Hc [Hin Hmax]]].
  assert (W : wp (scan_channel json_loads float_of_str env thr pub debug mon mhz)
    (fun _ => ext_cand (fst c) (snd c) (last_sensor_gps s1)
       (trace s1 ++
        [ETune (mhz_to_hz mhz); ESleep SETTLE_S; ESleep DWELL_S;
         ELog (LogSignals mhz (x :: xs))] ++
        (if pub then
           [EPublish (build_alert_messages (last_sensor_gps s1) (fst c) (snd c)
                        0 0 "energy")]
         else []) ++ [EStop])%list)
    (fun _ => ext_cand (fst c) (snd c) (last_sensor_gps s1)
       (trace s1 ++
        [ETune (mhz_to_hz mhz); ESleep SETTLE_S; ESleep DWELL_S;
         ELog (LogSignals mhz (x :: xs))] ++
        (if pub then
           [EPublish (build_alert_messages (last_sensor_gps s1) (fst c) (snd c)
                        0 0 "energy")]
         else []) ++ [EStop])%list) s).
  { unfold scan_channel. cbv zeta. rewrite wp_bind, (wp_ok_eq _ _ _ _ _ _ Hpoll).
    cbv beta. wp_simpl. cbn [n_map set_trace]. rewrite Hsig. wp_simpl.
    rewrite Hc. cbv iota. wp_simpl.
    destruct pub; [unfold publish_alert|]; wp_simpl;
      (apply confirm_and_reacquire_ext;
         [cbn [trace set_trace bump_map last_sensor_gps];
          now repeat rewrite <- app_assoc | reflexivity]). }
  unfold wp in W.
  destruct (scan_channel json_loads float_of_str env thr pub debug mon mhz s)
    as [[u|e] s'];
    destruct W as [rest [Ht [Hf _]]]; exists c, rest;
    (split; [exact Hc|split; [exact Hin|split; [exact Hmax|split; [|exact Hf]]]]);
    cbn [snd]; rewrite Ht; now repeat rewrite <- app_assoc.
Qed.

Lemma scan_channel_candidate_witness :
  py_max_by_bw (parse_rf_map (env_map env_two_signals 0) (mhz_to_hz 5805)) =
    Ok (5805500000, 6000000) /\
  nth_error (trace (snd (scan_channel json_subset float_subset env_two_signals
                           THRESHOLD_DB true false false 5805 init_st))) 4 =
    Some (EPublish (build_alert_messages None 5805500000 6000000 0 0 "energy")) /\
  nth_error (trace (snd (scan_channel json_subset float_subset env_two_signals
                           THRESHOLD_DB true false false 5805 init_st))) 5 =
    Some EStop.
Proof.
  assert (Hpoll : poll_monitor_for_gps json_subset float_subset env_two_signals false
                    init_st = (Ok tt, init_st)) by reflexivity.
  assert (Hne : parse_rf_map (env_map env_two_signals (n_map init_st)) (mhz_to_hz 5805)
                  <> []) by (vm_compute; discriminate).
  destruct (scan_channel_candidate json_subset float_subset env_two_signals THRESHOLD_DB
              true false false 5805 init_st init_st Hpoll Hne)
    as [cand [rest [Hc [_ [_ [Ht _]]]]]].
  assert (Hcand : cand = (5805500000, 6000000)).
  { vm_compute in Hc. injection Hc as <-. reflexivity. }
  subst cand. rewrite Ht.
  split; [exact Hc|]. split; reflexivity.
Defined.

(** * Further properties of the scanner *)

(** ** Choice of the candidate: ties *)

Lemma Qlt_bool_iff : forall a b, Qlt_bool a b = true <-> a < b.
Proof.
  intros a b. unfold Qlt_bool. split.
  - intros H. apply Qnot_le_lt. intros Hle. apply Qle_bool_iff in Hle.
    rewrite Hle in H. discriminate.
  - intros H. destruct (Qle_bool b a) eqn:E; [|reflexivity].
    apply Qle_bool_iff in E. exfalso. apply (Qlt_not_le a b H E).
Qed.

Lemma Qlt_bool_false : forall a b, Qlt_bool a b = false -> b <= a.
Proof.
  intros a b H. unfold Qlt_bool in H. apply Qle_bool_iff.
  destruct (Qle_bool b a); [reflexivity|discriminate].
Qed.

Lemma fold_first_max : forall (rest : list (Q * Q)) (b : Q * Q),
  let c := fold_left (fun best x => if Qlt_bool (snd best) (snd x) then x else best)
             rest b in
  (c = b /\ Forall (fun y => snd y <= snd b) rest) \/
  (snd b < snd c /\ exists pre post, rest = (pre ++ c :: post)%list /\
     Forall (fun y => snd y < snd c) pre /\ Forall (fun y => snd y <= snd c) post).
Proof.
  induction rest as [|x rest IH]; intros b; cbv zeta; simpl fold_left.
  - left. split; [reflexivity|constructor].
  - destruct (Qlt_bool (snd b) (snd x)) eqn:E.
    + apply Qlt_bool_iff in E. right.
      destruct (IH x) as [[Hc Hf] | [Hlt [pre [post [Hr [Hpre Hpost]]]]]].
      * rewrite Hc. split; [exact E|]. exists [], rest. split; [reflexivity|].
        split; [constructor|exact Hf].
      * split; [apply Qlt_trans with (snd x); assumption|].
        exists (x :: pre), post. split; [simpl; f_equal; exact Hr|].
        split; [constructor; assumption|exact Hpost].
    + apply Qlt_bool_false in E.
      destruct (IH b) as [[Hc Hf] | [Hlt [pre [post [Hr [Hpre Hpost]]]]]].
      * left. split; [exact Hc|]. constructor; assumption.
      * right. split; [exact Hlt|]. exists (x :: pre), post.
        split; [simpl; f_equal; exact Hr|]. split; [|exact Hpost].
        constructor; [|exact Hpre]. apply Qle_lt_trans with (snd b); assumption.
Qed.

(** X1 (main, [max(signals, key=lambda s: s[1])]): the chosen candidate is
    the first signal of largest bandwidth: every signal before it has a
    strictly smaller bandwidth, every signal after it one at most as large. *)
Theorem py_max_by_bw_first : forall signals c,
  py_max_by_bw signals = Ok c ->
  exists pre post, signals = (pre ++ c :: post)%list /\
    Forall (fun y => snd y < snd c) pre /\ Forall (fun y => snd y <= snd c) post.
Proof.
  intros [|s rest] c H; [discriminate|]. simpl in H. injection H as <-.
  destruct (fold_first_max rest s) as [[Hc Hf] | [Hlt [pre [post [Hr [Hpre Hpost]]]]]].
  - rewrite Hc. exists [], rest. split; [reflexivity|]. split; [constructor|exact Hf].
  - exists (s :: pre), post. split; [simpl; f_equal; exact Hr|].
    split; [constructor; assumption|exact Hpost].
Qed.

Lemma py_max_by_bw_first_witness :
  py_max_by_bw [(1, 6); (2, 4); (3, 6)] = Ok (1, 6) /\
  exists pre post, [(1, 6); (2, 4); (3, 6)] = (pre ++ (1, 6) :: post)%list /\
    Forall (fun y : Q * Q => snd y < snd (1, 6)) pre /\
    Forall (fun y : Q * Q => snd y <= snd (1, 6)) post.
Proof.
  assert (H : py_max_by_bw [(1, 6); (2, 4); (3, 6)] = Ok (1, 6)) by reflexivity.
  split; [exact H|]. exact (py_max_by_bw_first _ _ H).
Defined.

(** ** Location tracker *)

Lemma is_valid_latlon_true : forall fs lat lon,
  is_valid_latlon fs lat lon = Ok true ->
  exists a b, py_float fs lat = Ok a /\ py_float fs lon = Ok b /\
    -90 <= a <= 90 /\ -180 <= b <= 180.
Proof.
  intros fs lat lon. unfold is_valid_latlon.
  destruct (negb _ || negb _); [discriminate|].
  destruct (py_float fs lat) as [a|]; cbn [rbind]; [|discriminate].
  destruct (Qle_bool (-90) a && Qle_bool a 90)%bool eqn:H12; [|discriminate].
  destruct (py_float fs lon) as [b|]; cbn [rbind]; [|discriminate].
  intros H. injection H as H. apply andb_prop in H as [H3 H4].
  apply andb_prop in H12 as [H1 H2].
  apply Qle_bool_iff in H1, H2, H3, H4. exists a, b. auto.
Qed.

(** X2 (poll_monitor_for_gps): whatever the poll returns or raises, its only
    effects are one receive on the socket when monitoring is enabled and,
    possibly, a stored location whose latitude lies in [-90, 90] and whose
    longitude lies in [-180, 180]; without monitoring the state is untouched. *)
Theorem poll_monitor_for_gps_frame : forall jl fs env b s,
  let s' := snd (poll_monitor_for_gps jl fs env b s) in
  (b = false /\ s' = s) \/
  (b = true /\
   (s' = bump_recv s \/
    exists lat lon alt, s' = set_gps_st (lat, lon, alt) (bump_recv s) /\
      -90 <= lat <= 90 /\ -180 <= lon <= 180)).
Proof.
  intros jl fs env b s. cbv zeta.
  destruct b; [right; split; [reflexivity|] | left; split; reflexivity].
  set (P := fun s' => s' = bump_recv s \/
    exists lat lon alt, s' = set_gps_st (lat, lon, alt) (bump_recv s) /\
      -90 <= lat <= 90 /\ -180 <= lon <= 180).
  enough (H : wp (poll_monitor_for_gps jl fs env true) (fun _ => P) (fun _ => P) s).
  { unfold wp in H. destruct (poll_monitor_for_gps jl fs env true s) as [[]]; exact H. }
  unfold poll_monitor_for_gps. simpl negb. cbv iota. wp_simpl.
  destruct (env_recv env (n_recv s)) as [| |msg]; wp_simpl; try (left; reflexivity).
  destruct (jl msg) as [payload|]; wp_simpl; [|left; reflexivity].
  destruct (py_get payload "lat" JNull) as [lat|]; wp_simpl; [|left; reflexivity].
  destruct (py_get payload "lon" JNull) as [lon|]; wp_simpl; [|left; reflexivity].
  destruct (py_get payload "alt" (JNum 0)) as [alt|]; wp_simpl; [|left; reflexivity].
  destruct (is_valid_latlon fs lat lon) as [ok|] eqn:Hv; wp_simpl; [|left; reflexivity].
  destruct ok; wp_simpl; [|left; reflexivity].
  destruct (is_valid_latlon_true fs lat lon Hv) as [a [b' [Ha [Hb [Hra Hrb]]]]].
  rewrite Ha, Hb. wp_simpl.
  destruct (py_float fs alt) as [c|]; wp_simpl; [|left; reflexivity].
  right. exists a, b', c. auto.
Qed.

(** X3 (poll_monitor_for_gps): a telemetry object whose [lat] and [lon] are
    numbers that [float()] converts (within the double range) and that has
    no [alt] key is stored with altitude 0 when the coordinates are in
    range, and leaves the stored location unchanged otherwise; the poll
    returns normally. *)
Theorem poll_monitor_for_gps_alt_default : forall jl fs env s msg kvs lat lon,
  env_recv env (n_recv s) = RMsg msg ->
  jl msg = Some (JObj kvs) ->
  assoc_last "lat" kvs = Some (JNum lat) ->
  assoc_last "lon" kvs = Some (JNum lon) ->
  assoc_last "alt" kvs = None ->
  overflows lat = false ->
  overflows lon = false ->
  poll_monitor_for_gps jl fs env true s =
    (Ok tt,
     if Qle_bool (-90) lat && Qle_bool lat 90 &&
        Qle_bool (-180) lon && Qle_bool lon 180
     then set_gps_st (lat, lon, 0) (bump_recv s)
     else bump_recv s).
Proof.
  intros jl fs env s msg kvs lat lon Hr Hj Hlat Hlon Halt Hol Hon.
  unfold poll_monitor_for_gps. cbv beta. cbn [negb].
  rewrite (bind_ok (next_recv env) _ s (RMsg msg) (bump_recv s))
    by (unfold next_recv; now rewrite Hr).
  cbv beta iota. rewrite Hj.
  unfold py_get. rewrite Hlat, Hlon, Halt.
  cbn -[overflows Qle_bool]. rewrite Hol. cbn -[overflows Qle_bool].
  destruct (Qle_bool (-90) lat && Qle_bool lat 90)%bool eqn:Hla; cbn -[overflows Qle_bool];
    [rewrite Hon; cbn -[Qle_bool]|].
  - destruct (Qle_bool (-180) lon && Qle_bool lon 180)%bool; reflexivity.
  - reflexivity.
Qed.

Lemma poll_monitor_for_gps_alt_default_witness :
  let env_g :=
    mkEnv (fun _ => OConstructed StartOk) (fun _ => []) (fun _ => None)
          (fun _ => PNotFound) (fun _ => RMsg (dq "{'lat': 45, 'lon': -120}")) true in
  env_recv env_g (n_recv init_st) = RMsg (dq "{'lat': 45, 'lon': -120}") /\
  json_subset (dq "{'lat': 45, 'lon': -120}") =
    Some (JObj [("lat", JNum 45); ("lon", JNum (-120))]) /\
  poll_monitor_for_gps json_subset float_subset env_g true init_st =
    (Ok tt, set_gps_st (45, -120, 0) (bump_recv init_st)).
Proof.
  intros env_g.
  assert (H1 : env_recv env_g (n_recv init_st) = RMsg (dq "{'lat': 45, 'lon': -120}"))
    by reflexivity.
  assert (H2 : json_subset (dq "{'lat': 45, 'lon': -120}") =
    Some (JObj [("lat", JNum 45); ("lon", JNum (-120))])) by (vm_compute; reflexivity).
  split; [exact H1|]. split; [exact H2|].
  exact (poll_monitor_for_gps_alt_default json_subset float_subset env_g init_st _ _
           45 (-120) H1 H2 eq_refl eq_refl eq_refl eq_refl eq_refl).
Defined.

(** ** Confirmation engine *)

Lemma scan_lines_raises : forall jl fs lines skip mp mn,
  (exists e, scan_lines jl fs lines skip mp mn = Exc e) <->
  (exists L d e, In L (skipn skip (filter (startswith "{") lines)) /\
     jl L = Some d /\ record_scores fs d = Exc e).
Proof.
  intros jl fs lines. induction lines as [|line rest IH]; intros skip mp mn.
  - simpl. rewrite skipn_nil. split.
    + intros [e H]. discriminate.
    + intros [L [d [e [[] _]]]].
  - cbn [scan_lines filter].
    destruct (startswith "{" line) eqn:Hs; simpl negb; cbv iota; [|apply IH].
    destruct skip as [|k]; [|apply IH].
    cbn [skipn].
    destruct (jl line) as [d|] eqn:Hj.
    + destruct (record_scores fs d) as [[p n]|e] eqn:Hr.
      * rewrite IH. split.
        -- intros [L [d' [e [HL [HL' He]]]]]. exists L, d', e. split; [right; exact HL|auto].
        -- intros [L [d' [e [[<-|HL] [HL' He]]]]].
           ++ rewrite Hj in HL'. injection HL' as <-. congruence.
           ++ exists L, d', e. auto.
      * split; [intros _; exists line, d, e; split; [left; reflexivity|auto]|].
        intros _. exists e. reflexivity.
    + rewrite IH. split.
      * intros [L [d' [e [HL [HL' He]]]]]. exists L, d', e. split; [right; exact HL|auto].
      * intros [L [d' [e [[<-|HL] [HL' He]]]]]; [congruence|].
        exists L, d', e. auto.
Qed.

(** X4 (run_confirm, score parsing): parsing the classifier output raises
    exactly when some body line (a structured line after the two header
    lines) decodes to a value on which the score lookup raises. *)
Theorem parse_scores_raises : forall jl fs output,
  (exists e, parse_scores jl fs output = Exc e) <->
  (exists L d e, In L (body_lines output) /\ jl L = Some d /\ record_scores fs d = Exc e).
Proof. intros jl fs output. exact (scan_lines_raises jl fs (py_splitlines output) 2 0 0). Qed.

(** X5 (run_confirm, _disable_confirm): with the breaker clear, one
    confirmation call sets the breaker reason to "not found" when the binary
    is missing, to "command not available" when it exits non-zero with
    "Unknown command" or "unknown command" in its output, and leaves it clear
    otherwise; it runs the classifier once, logs the warning only when the
    breaker is set, and returns no scores when it is set. *)
Theorem run_confirm_disable_rule : forall jl fs env hz s,
  confirm_disabled_reason s = None ->
  let r :=
    match env_proc env (n_proc s) with
    | PNotFound => Some (SUSCLI_BIN ++ " not found in PATH")
    | PTimeout _ => None
    | PExited code out err =>
        if (negb (code =? 0)%Z &&
            (py_contains "Unknown command" (out ++ newline ++ err) ||
             py_contains "unknown command" (out ++ newline ++ err)))%bool
        then Some "suscli fpvdet command not available" else None
    end in
  confirm_disabled_reason (snd (run_confirm jl fs env hz s)) = r /\
  trace (snd (run_confirm jl fs env hz s)) =
    (trace s ++ [EConfirmRun hz; EConfirmDone] ++
     match r with Some m => [ELog (LogWarnDisabled m)] | None => [] end)%list /\
  (r <> None -> fst (run_confirm jl fs env hz s) = Ok (None, None)).
Proof.
  intros jl fs env hz s Hr r.
  set (P := fun s' => confirm_disabled_reason s' = r /\
    trace s' = (trace s ++ [EConfirmRun hz; EConfirmDone] ++
     match r with Some m => [ELog (LogWarnDisabled m)] | None => [] end)%list).
  enough (H : wp (run_confirm jl fs env hz)
                 (fun a s' => P s' /\ (r <> None -> a = (None, None)))
                 (fun _ s' => P s' /\ r = None) s).
  { unfold wp in H. destruct (run_confirm jl fs env hz s) as [[a|e] s'];
      destruct H as [[H1 H2] H3]; cbn [fst snd].
    - repeat split; auto. intros Hn. f_equal. auto.
    - repeat split; auto. intros Hn. contradiction. }
  unfold run_confirm. wp_simpl. rewrite Hr. wp_simpl.
  unfold P, r. clear P r.
  cbn [n_proc set_trace bump_proc trace confirm_disabled_reason].
  destruct (env_proc env (n_proc s)) as [|out|code out err].
  - unfold _disable_confirm. wp_simpl.
    cbn [confirm_disabled_reason set_trace bump_proc set_reason_st trace]. rewrite Hr.
    wp_simpl. cbn [confirm_disabled_reason set_trace set_reason_st trace].
    split; [split; [reflexivity|now repeat rewrite <- app_assoc]|intros _; reflexivity].
  - unfold scores_of. wp_simpl.
    destruct (parse_scores jl fs out) as [[p n]|e]; wp_simpl;
      cbn [confirm_disabled_reason set_trace bump_proc trace];
      (split; [split; [exact Hr|now rewrite app_nil_r, <- app_assoc]|]);
      auto; intros []; reflexivity.
  - destruct (_ && _)%bool.
    + unfold _disable_confirm. wp_simpl.
      cbn [confirm_disabled_reason set_trace bump_proc set_reason_st trace]. rewrite Hr.
      wp_simpl. cbn [confirm_disabled_reason set_trace set_reason_st trace].
      split; [split; [reflexivity|now repeat rewrite <- app_assoc]|intros _; reflexivity].
    + unfold scores_of. wp_simpl.
      destruct (parse_scores jl fs out) as [[p n]|e]; wp_simpl;
        cbn [confirm_disabled_reason set_trace bump_proc trace];
        (split; [split; [exact Hr|now rewrite app_nil_r, <- app_assoc]|]);
        auto; intros []; reflexivity.
Qed.

Lemma run_confirm_disable_rule_witness :
  let env_u :=
    mkEnv (fun _ => OConstructed StartOk) (fun _ => []) (fun _ => None)
          (fun _ => PExited 2 EmptyString "fpvdet: unknown command")
          (fun _ => RAgain) false in
  confirm_disabled_reason init_st = None /\
  confirm_disabled_reason (snd (run_confirm json_subset float_subset env_u 5 init_st)) =
    Some "suscli fpvdet command not available" /\
  trace (snd (run_confirm json_subset float_subset env_u 5 init_st)) =
    [EConfirmRun 5; EConfirmDone;
     ELog (LogWarnDisabled "suscli fpvdet command not available")] /\
  (Some "suscli fpvdet command not available" <> None ->
   fst (run_confirm json_subset float_subset env_u 5 init_st) = Ok (None, None)).
Proof.
  intros env_u. split; [reflexivity|].
  exact (run_confirm_disable_rule json_subset float_subset env_u 5 init_st eq_refl).
Defined.

Lemma run_confirm_parse_error_eq : forall jl fs env hz s out e,
  confirm_disabled_reason s = None ->
  (env_proc env (n_proc s) = PTimeout out \/
   exists code err, env_proc env (n_proc s) = PExited code out err /\
     (negb (code =? 0)%Z &&
      (py_contains "Unknown command" (out ++ newline ++ err) ||
       py_contains "unknown command" (out ++ newline ++ err)))%bool = false) ->
  parse_scores jl fs out = Exc e ->
  run_confirm jl fs env hz s =
    (Exc e, set_trace (trace s ++ [EConfirmRun hz; EConfirmDone])%list (bump_proc s)).
Proof.
  intros jl fs env hz s out e Hr Ho Hp.
  unfold run_confirm. erewrite bind_ok; [|reflexivity]. rewrite Hr.
  erewrite bind_ok; [|reflexivity]. erewrite bind_ok; [|reflexivity].
  erewrite bind_ok; [|reflexivity].
  cbn [n_proc set_trace].
  assert (Hs : forall s', scores_of jl fs out s' = (Exc e, s')).
  { intros s'. unfold scores_of. apply bind_exc. unfold lift. now rewrite Hp. }
  destruct Ho as [Ho | [code [err [Ho Hc]]]]; rewrite Ho; [|rewrite Hc]; rewrite Hs;
    destruct s; unfold set_trace, bump_proc; cbn; now rewrite <- app_assoc.
Qed.

(** X6 (main, confirmation step): when the classifier times out or exits
    without a disable signal and its output holds a line on which the score
    lookup raises, the exception escapes the confirmation step after the
    pipeline was stopped, the cooldown slept and the classifier run: the
    pipeline is left closed and is not reopened. *)
Theorem confirm_and_reacquire_parse_error :
  forall jl fs env thr pub debug hz bw s out e,
  confirm_disabled_reason s = None ->
  (env_proc env (n_proc s) = PTimeout out \/
   exists code err, env_proc env (n_proc s) = PExited code out err /\
     (negb (code =? 0)%Z &&
      (py_contains "Unknown command" (out ++ newline ++ err) ||
       py_contains "unknown command" (out ++ newline ++ err)))%bool = false) ->
  parse_scores jl fs out = Exc e ->
  confirm_and_reacquire jl fs env thr pub debug hz bw s =
    (Exc e,
     set_trace (trace s ++ [EStop; ESleep COOLDOWN_S; EConfirmRun hz; EConfirmDone])%list
       (bump_proc (set_tb_st false s))).
Proof.
  intros jl fs env thr pub debug hz bw s out e Hr Ho Hp.
  unfold confirm_and_reacquire.
  do 3 (erewrite bind_ok; [|reflexivity]; cbv beta).
  erewrite bind_exc;
    [|apply run_confirm_parse_error_eq with (out := out); [exact Hr|exact Ho|exact Hp]].
  f_equal. apply St_ext; cbn [confirm_disabled_reason last_sensor_gps main_tb trace n_open
    n_spec n_map n_proc n_recv set_trace bump_proc set_tb_st]; try reflexivity.
  now repeat rewrite <- app_assoc.
Qed.

Lemma confirm_and_reacquire_parse_error_witness :
  let out := (dq "{'fpvdet': 'start'}") ++ newline ++
             (dq "{'profile': 'fpv58_race_2m'}") ++ newline ++
             (dq "{'signal': 5}") in
  let env_t :=
    mkEnv (fun _ => OConstructed StartOk) (fun _ => []) (fun _ => None)
          (fun _ => PTimeout out) (fun _ => RAgain) false in
  parse_scores json_subset float_subset out = Exc AttributeError /\
  confirm_and_reacquire json_subset float_subset env_t THRESHOLD_DB true false
      5805000000 6000000 (set_tb_st true init_st) =
    (Exc AttributeError,
     set_trace [EStop; ESleep COOLDOWN_S; EConfirmRun 5805000000; EConfirmDone]
       (bump_proc (set_tb_st false (set_tb_st true init_st)))).
Proof.
  intros out env_t.
  assert (Hp : parse_scores json_subset float_subset out = Exc AttributeError)
    by (vm_compute; reflexivity).
  split; [exact Hp|].
  exact (confirm_and_reacquire_parse_error json_subset float_subset env_t THRESHOLD_DB
           true false 5805000000 6000000 (set_tb_st true init_st) out AttributeError
           eq_refl (or_introl eq_refl) Hp).
Defined.

(** ** Channel visits *)

(** X7 (main, one channel visit): when the detector reports no signal of
    sufficient bandwidth, the visit after the location poll tunes, settles,
    dwells, logs "no signal" for the channel and consumes one detector
    message, nothing else. *)
Theorem scan_channel_no_signal : forall jl fs env thr pub debug mon mhz s s1,
  poll_monitor_for_gps jl fs env mon s = (Ok tt, s1) ->
  parse_rf_map (env_map env (n_map s1)) (mhz_to_hz mhz) = [] ->
  scan_channel jl fs env thr pub debug mon mhz s =
    (Ok tt,
     set_trace (trace s1 ++ [ETune (mhz_to_hz mhz); ESleep SETTLE_S; ESleep DWELL_S;
                             ELog (LogNone mhz)])%list
       (bump_map s1)).
Proof.
  intros jl fs env thr pub debug mon mhz s s1 Hpoll Hsig.
  unfold scan_channel. cbv zeta. rewrite (bind_ok _ _ s tt s1 Hpoll).
  do 4 (erewrite bind_ok; [|reflexivity]; cbv beta).
  cbn [n_map set_trace]. rewrite Hsig. unfold emit.
  f_equal. apply St_ext; cbn [confirm_disabled_reason last_sensor_gps main_tb trace n_open
    n_spec n_map n_proc n_recv set_trace bump_map]; try reflexivity.
  now repeat rewrite <- app_assoc.
Qed.

Lemma scan_channel_no_signal_witness :
  poll_monitor_for_gps json_subset float_subset env_retry2 false init_st = (Ok tt, init_st) /\
  parse_rf_map (env_map env_retry2 (n_map init_st)) (mhz_to_hz 5805) = [] /\
  scan_channel json_subset float_subset env_retry2 THRESHOLD_DB true false false 5805 init_st =
    (Ok tt,
     set_trace [ETune (mhz_to_hz 5805); ESleep SETTLE_S; ESleep DWELL_S; ELog (LogNone 5805)]
       (bump_map init_st)).
Proof.
  assert (H1 : poll_monitor_for_gps json_subset float_subset env_retry2 false init_st =
                 (Ok tt, init_st)) by reflexivity.
  assert (H2 : parse_rf_map (env_map env_retry2 (n_map init_st)) (mhz_to_hz 5805) = [])
    by reflexivity.
  split; [exact H1|]. split; [exact H2|].
  exact (scan_channel_no_signal json_subset float_subset env_retry2 THRESHOLD_DB true false
           false 5805 init_st init_st H1 H2).
Defined.

(** ** Warm-up *)

Lemma warmup_channels_state : forall env ms med s,
  snd (warmup_channels env ms med s) =
    mkSt (confirm_disabled_reason s) (last_sensor_gps s) (main_tb s)
         (trace s ++ warmup_events ms)%list (n_open s) (n_spec s + length ms)
         (n_map s) (n_proc s) (n_recv s).
Proof.
  intros env ms. induction ms as [|m ms IH]; intros med s.
  - destruct s. cbn. rewrite app_nil_r, Nat.add_0_r. reflexivity.
  - cbn [warmup_channels bind tb_set_center sleep emit tb_get_latest_spectrum
         next_spectrum].
    destruct (env_spectrum env _) as [|x sp];
      [|destruct (py_median _)]; rewrite IH;
      cbn [confirm_disabled_reason last_sensor_gps main_tb trace n_open
           n_spec n_map n_proc n_recv set_trace bump_spec length warmup_events flat_map];
      (f_equal; [now repeat rewrite <- app_assoc | lia]).
Qed.

Lemma warmup_threshold_state : forall env s,
  exists thr,
    warmup_threshold env s =
      (Ok thr,
       mkSt (confirm_disabled_reason s) (last_sensor_gps s) (main_tb s)
            (trace s ++ warmup_events ALL_CENTERS_MHZ)%list (n_open s)
            (n_spec s + length ALL_CENTERS_MHZ) (n_map s) (n_proc s) (n_recv s)).
Proof.
  intros env s.
  destruct (warmup_channels_spec env ALL_CENTERS_MHZ [] s) as [meds [s' [Hrun _]]].
  pose proof (warmup_channels_state env ALL_CENTERS_MHZ [] s) as Hst.
  rewrite Hrun in Hst. cbn [snd] in Hst.
  unfold warmup_threshold, WARMUP_SWEEPS. cbn [warmup_sweeps].
  unfold bind at 1. unfold bind at 1. rewrite Hrun. cbn [app ret]. rewrite <- Hst.
  destruct meds as [|m0 meds'].
  - exists THRESHOLD_DB. reflexivity.
  - destruct (py_median_some (m0 :: meds')) as [m Hm]; [discriminate|].
    rewrite Hm. exists (m + THRESHOLD_OFFSET_DB). reflexivity.
Qed.

(** X8 (warmup_threshold): the warm-up never raises, visits every channel
    once in order (tune, settle, dwell), reads exactly one spectrum per
    channel and changes nothing else in the state. *)
Theorem warmup_threshold_events : forall env s,
  exists thr,
    warmup_threshold env s =
      (Ok thr,
       mkSt (confirm_disabled_reason s) (last_sensor_gps s) (main_tb s)
            (trace s ++ warmup_events ALL_CENTERS_MHZ)%list (n_open s)
            (n_spec s + length ALL_CENTERS_MHZ) (n_map s) (n_proc s) (n_recv s)).
Proof. exact warmup_threshold_state. Qed.

(** ** What a run of main emits *)

Lemma scan_lines_ge : forall jl fs lines skip mp mn p n,
  scan_lines jl fs lines skip mp mn = Ok (p, n) -> mp <= p /\ mn <= n.
Proof.
  intros jl fs lines. induction lines as [|line rest IH]; intros skip mp mn p n H.
  - injection H as <- <-. split; apply Qle_refl.
  - cbn [scan_lines] in H.
    destruct (negb (startswith "{" line)); [exact (IH _ _ _ _ _ H)|].
    destruct skip as [|k]; [|exact (IH _ _ _ _ _ H)].
    destruct (jl line) as [d|]; [|exact (IH _ _ _ _ _ H)].
    destruct (record_scores fs d) as [[p' n']|e]; [|discriminate].
    destruct (IH _ _ _ _ _ H) as [H1 H2].
    split; eapply Qle_trans; [apply py_max_ge_l|exact H1|apply py_max_ge_l|exact H2].
Qed.

Lemma parse_scores_nonneg : forall jl fs out p n,
  parse_scores jl fs out = Ok (p, n) -> 0 <= p /\ 0 <= n.
Proof. intros jl fs out p n H. exact (scan_lines_ge _ _ _ _ _ _ _ _ H). Qed.

Section Emits.

Variable json_loads : string -> option JValue.
Variable float_of_str : string -> option Q.
Variable env : Env.
Variable P : event -> Prop.
Variables pub debug : bool.
Hypothesis HPlain : forall e, plain_event e -> P e.
Hypothesis HTune : forall hz, P (ETune hz).
Hypothesis HConf : forall hz pal ntsc, 0 <= pal -> 0 <= ntsc -> P (ELog (LogConfirm hz pal ntsc)).
Hypothesis HPub : pub = true -> forall g hz bw pal ntsc source,
  loc_ok g -> 0 <= pal -> 0 <= ntsc ->
  P (EPublish (build_alert_messages g hz bw pal ntsc source)).
Hypothesis HDbg : debug = true ->
  (forall t, P (ELog (LogWarmup t))) /\
  (forall hz bw pal ntsc, 0 <= pal -> 0 <= ntsc -> P (ELog (LogDebugConfirm hz bw pal ntsc))).

Lemma tok_emit : forall t0 s e,
  trace_ok P t0 s -> P e -> trace_ok P t0 (set_trace (trace s ++ [e])%list s).
Proof.
  intros t0 s e [rest [Ht [Hf Hg]]] He. exists (rest ++ [e])%list.
  cbn [trace set_trace last_sensor_gps]. rewrite Ht, app_assoc.
  split; [reflexivity|]. split; [|exact Hg].
  apply Forall_app. split; [exact Hf|constructor; [exact He|constructor]].
Qed.

Lemma tok_state : forall t0 s s',
  trace_ok P t0 s -> trace s' = trace s -> last_sensor_gps s' = last_sensor_gps s ->
  trace_ok P t0 s'.
Proof.
  intros t0 s s' [rest [Ht [Hf Hg]]] H1 H2. exists rest.
  rewrite H1, H2. auto.
Qed.

Lemma tok_gps : forall t0 s g,
  trace_ok P t0 s -> loc_ok (Some g) -> trace_ok P t0 (set_gps_st g s).
Proof. intros t0 s g [rest [Ht [Hf Hg]]] H. exists rest. auto. Qed.

Ltac ev :=
  first [ apply HTune | apply HPlain; exact I | apply HConf; assumption ].

Lemma tok_loc : forall t0 s, trace_ok P t0 s -> loc_ok (last_sensor_gps s).
Proof. intros t0 s [rest [_ [_ Hg]]]. exact Hg. Qed.

Ltac tok :=
  match goal with
  | |- trace_ok _ _ (set_trace (_ ++ [EPublish _])%list _) =>
      apply tok_emit;
      [tok | apply HPub; [first [reflexivity | assumption] | eapply tok_loc; tok
                         | first [assumption | apply Qle_refl]
                         | first [assumption | apply Qle_refl]]]
  | |- trace_ok _ _ (set_trace (_ ++ [ELog (LogDebugConfirm _ _ _ _)])%list _) =>
      apply tok_emit; [tok | apply (proj2 (HDbg eq_refl)); assumption]
  | |- trace_ok _ _ (set_trace (_ ++ [ELog (LogWarmup _)])%list _) =>
      apply tok_emit; [tok | apply (proj1 (HDbg eq_refl))]
  | |- trace_ok _ _ (set_trace (_ ++ [_])%list _) => apply tok_emit; [tok | ev]
  | |- trace_ok _ _ (set_tb_st _ ?x) => apply (tok_state _ x); [tok|reflexivity|reflexivity]
  | |- trace_ok _ _ (set_reason_st _ ?x) => apply (tok_state _ x); [tok|reflexivity|reflexivity]
  | |- trace_ok _ _ (bump_open ?x) => apply (tok_state _ x); [tok|reflexivity|reflexivity]
  | |- trace_ok _ _ (bump_spec ?x) => apply (tok_state _ x); [tok|reflexivity|reflexivity]
  | |- trace_ok _ _ (bump_map ?x) => apply (tok_state _ x); [tok|reflexivity|reflexivity]
  | |- trace_ok _ _ (bump_proc ?x) => apply (tok_state _ x); [tok|reflexivity|reflexivity]
  | |- trace_ok _ _ (bump_recv ?x) => apply (tok_state _ x); [tok|reflexivity|reflexivity]
  | _ => cbv beta in *; eassumption
  end.

Lemma tok_poll : forall t0 b s,
  trace_ok P t0 s ->
  wp (poll_monitor_for_gps json_loads float_of_str env b)
     (fun _ => trace_ok P t0) (fun _ => trace_ok P t0) s.
Proof.
  intros t0 b s H. unfold poll_monitor_for_gps.
  destruct b; cbn [negb]; wp_simpl; [|exact H].
  destruct (env_recv env (n_recv s)) as [| |msg]; wp_simpl; try tok.
  destruct (json_loads msg) as [payload|]; wp_simpl; [|tok].
  destruct (py_get payload "lat" JNull) as [lat|]; wp_simpl; [|tok].
  destruct (py_get payload "lon" JNull) as [lon|]; wp_simpl; [|tok].
  destruct (py_get payload "alt" (JNum 0)) as [alt|]; wp_simpl; [|tok].
  destruct (is_valid_latlon float_of_str lat lon) as [ok|] eqn:Hv; wp_simpl; [|tok].
  destruct ok; wp_simpl; [|tok].
  destruct (is_valid_latlon_true float_of_str lat lon Hv) as [a [b' [Ha [Hb Hr]]]].
  rewrite Ha, Hb. wp_simpl.
  destruct (py_float float_of_str alt) as [c|]; wp_simpl; [|tok].
  apply tok_gps; [tok|exact Hr].
Qed.

Lemma tok_InspectorScan : forall t0 thr s,
  trace_ok P t0 s ->
  wp (InspectorScan env thr) (fun _ => trace_ok P t0) (fun _ => trace_ok P t0) s.
Proof.
  intros t0 thr s H. unfold InspectorScan. wp_simpl.
  destruct (env_open env (n_open s)); wp_simpl; tok.
Qed.

Lemma tok_tb_start : forall t0 o s,
  trace_ok P t0 s ->
  wp (tb_start o) (fun _ => trace_ok P t0) (fun _ => trace_ok P t0) s.
Proof. intros t0 [] s H; unfold tb_start; wp_simpl; tok. Qed.

Lemma tok_retry_loop : forall t0 thr left attempt s,
  trace_ok P t0 s ->
  wp (retry_loop env thr attempt left) (fun _ => trace_ok P t0) (fun _ => trace_ok P t0) s.
Proof.
  intros t0 thr left. induction left as [|left IH]; intros attempt s H; simpl retry_loop.
  { wp_simpl. exact H. }
  rewrite wp_bind. eapply wp_weaken; [apply tok_InspectorScan; exact H| |auto].
  intros o s1 H1. rewrite wp_bind, wp_try_catch, wp_bind.
  eapply wp_weaken; [apply tok_tb_start; exact H1| |].
  - intros [] s2 H2. wp_simpl. exact H2.
  - intros e s2 H2. destruct e; wp_simpl; try exact H2.
    apply IH. tok.
Qed.

Lemma tok_run_confirm : forall t0 hz s,
  trace_ok P t0 s ->
  wp (run_confirm json_loads float_of_str env hz)
     (fun r s' => trace_ok P t0 s' /\
        forall p n, r = (Some p, Some n) -> 0 <= p /\ 0 <= n)
     (fun _ => trace_ok P t0) s.
Proof.
  intros t0 hz s H. unfold run_confirm. wp_simpl.
  destruct (confirm_disabled_reason s) eqn:Hr.
  { wp_simpl. split; [exact H | discriminate]. }
  wp_simpl.
  assert (Hsc : forall out s1, trace_ok P t0 s1 ->
    wp (scores_of json_loads float_of_str out)
       (fun r s' => trace_ok P t0 s' /\
          forall p n, r = (Some p, Some n) -> 0 <= p /\ 0 <= n)
       (fun _ => trace_ok P t0) s1).
  { intros out s1 H1. unfold scores_of. wp_simpl.
    destruct (parse_scores json_loads float_of_str out) as [[p n]|e] eqn:Hp;
      wp_simpl; [|exact H1].
    split; [exact H1|]. intros p' n' Heq. injection Heq as <- <-.
    exact (parse_scores_nonneg _ _ _ _ _ Hp). }
  destruct (env_proc env _) as [|out|code out err].
  - unfold _disable_confirm. wp_simpl.
    destruct (confirm_disabled_reason _); wp_simpl; (split; [tok|discriminate]).
  - apply Hsc. tok.
  - destruct (_ && _)%bool.
    + unfold _disable_confirm. wp_simpl.
      destruct (confirm_disabled_reason _); wp_simpl; (split; [tok|discriminate]).
    + apply Hsc. tok.
Qed.

Lemma tok_reacquire : forall t0 thr s,
  trace_ok P t0 s ->
  wp (start_tb_with_retry env thr)
     (fun _ => wp (set_tb true) (fun _ => trace_ok P t0) (fun _ => trace_ok P t0))
     (fun _ => trace_ok P t0) s.
Proof.
  intros t0 thr s H. unfold start_tb_with_retry.
  eapply wp_weaken; [apply tok_retry_loop; exact H| |auto].
  intros a s1 H1. wp_simpl. tok.
Qed.

Lemma tok_confirm_and_reacquire : forall t0 thr hz bw s,
  trace_ok P t0 s ->
  wp (confirm_and_reacquire json_loads float_of_str env thr pub debug hz bw)
     (fun _ => trace_ok P t0) (fun _ => trace_ok P t0) s.
Proof.
  intros t0 thr hz bw s H. unfold confirm_and_reacquire. wp_simpl.
  eapply wp_weaken; [apply tok_run_confirm; tok| |auto].
  intros r s1 [H1 Hr].
  destruct r as [[p|] [n|]]; wp_simpl; try (apply tok_reacquire; tok).
  destruct (Hr p n eq_refl) as [Hp Hn].
  destruct pub eqn:Hpb; [unfold publish_alert|]; destruct debug eqn:Hdb; wp_simpl;
    apply tok_reacquire; tok.
Qed.

Lemma Forall_warmup_events : forall ms, Forall P (warmup_events ms).
Proof.
  induction ms as [|m ms IH]; [constructor|].
  cbn [warmup_events flat_map]. fold (warmup_events ms).
  repeat constructor; try apply HTune; try (apply HPlain; exact I); exact IH.
Qed.

Lemma tok_warmup_threshold : forall t0 s,
  trace_ok P t0 s ->
  wp (warmup_threshold env) (fun _ => trace_ok P t0) (fun _ => trace_ok P t0) s.
Proof.
  intros t0 s [rest [Ht [Hf Hg]]].
  destruct (warmup_threshold_state env s) as [thr Hw]. unfold wp. rewrite Hw.
  exists (rest ++ warmup_events ALL_CENTERS_MHZ)%list. cbn [trace last_sensor_gps].
  rewrite Ht, app_assoc. split; [reflexivity|]. split; [|exact Hg].
  apply Forall_app. split; [exact Hf|apply Forall_warmup_events].
Qed.

Lemma tok_scan_channel : forall t0 thr mon mhz s,
  trace_ok P t0 s ->
  wp (scan_channel json_loads float_of_str env thr pub debug mon mhz)
     (fun _ => trace_ok P t0) (fun _ => trace_ok P t0) s.
Proof.
  intros t0 thr mon mhz s H. unfold scan_channel. cbv zeta.
  rewrite wp_bind. eapply wp_weaken; [apply tok_poll; exact H| |auto].
  intros [] s1 H1. wp_simpl.
  destruct (parse_rf_map _ _) as [|c0 rest]; wp_simpl; [tok|].
  destruct (py_max_by_bw _) as [c|e]; wp_simpl; [|tok].
  assert (Hpb : pub = true \/ pub = false) by (destruct pub; auto).
  destruct Hpb as [Hpb|Hpb]; rewrite Hpb at 1; [unfold publish_alert|]; wp_simpl;
    (eapply wp_weaken; [apply tok_confirm_and_reacquire; tok | auto | auto]).
Qed.

Lemma tok_scan_loop : forall t0 thr mon fuel k s,
  trace_ok P t0 s ->
  wp (scan_loop json_loads float_of_str env thr pub debug mon fuel k)
     (fun _ => trace_ok P t0) (fun _ => trace_ok P t0) s.
Proof.
  intros t0 thr mon fuel. induction fuel as [|fuel IH]; intros k s H.
  - exact H.
  - rewrite scan_loop_S, wp_bind.
    eapply wp_weaken; [apply tok_scan_channel; exact H | | auto].
    intros [] s1 H1. apply IH. exact H1.
Qed.

Lemma tok_main : forall t0 visits s,
  trace_ok P t0 s ->
  wp (main json_loads float_of_str env pub debug visits)
     (fun _ => trace_ok P t0) (fun _ => trace_ok P t0) s.
Proof.
  intros t0 visits s H. unfold main. cbv zeta. rewrite wp_bind.
  eapply wp_weaken; [apply tok_InspectorScan; exact H | | auto].
  intros o s1 H1. wp_simpl.
  eapply wp_weaken; [apply tok_tb_start; tok | | auto].
  intros [] s2 H2. cbv beta. rewrite wp_bind.
  eapply wp_weaken with (Q := fun _ => trace_ok P t0) (E := fun _ => trace_ok P t0).
  - destruct (_ && _)%bool; wp_simpl; [|exact H2].
    eapply wp_weaken; [apply tok_warmup_threshold; exact H2 | | auto].
    intros t s3 H3. cbv beta. destruct debug eqn:Hdb; wp_simpl;
      (eapply wp_weaken; [apply tok_reacquire; tok | | auto]);
      intros a s4 H4; wp_simpl; exact H4.
  - intros thr s3 H3. rewrite wp_try_finally.
    eapply wp_weaken; [apply tok_scan_loop; exact H3 | |].
    + intros [] s4 H4. wp_simpl. destruct (main_tb s4); wp_simpl; tok.
    + intros e s4 H4. wp_simpl. destruct (main_tb s4); wp_simpl; tok.
  - auto.
Qed.


End Emits.

Lemma main_trace_ok : forall (json_loads : string -> option JValue)
    (float_of_str : string -> option Q) (env : Env) (P : event -> Prop) (pub debug : bool),
  (forall e, plain_event e -> P e) ->
  (forall hz : Q, P (ETune hz)) ->
  (forall hz pal ntsc : Q, 0 <= pal -> 0 <= ntsc -> P (ELog (LogConfirm hz pal ntsc))) ->
  (pub = true -> forall (g : option (Q * Q * Q)) (hz bw pal ntsc : Q) (source : string),
     loc_ok g -> 0 <= pal -> 0 <= ntsc ->
     P (EPublish (build_alert_messages g hz bw pal ntsc source))) ->
  (debug = true ->
     (forall t : Q, P (ELog (LogWarmup t))) /\
     (forall hz bw pal ntsc : Q, 0 <= pal -> 0 <= ntsc ->
        P (ELog (LogDebugConfirm hz bw pal ntsc)))) ->
  forall visits : nat,
  Forall P (trace (snd (main json_loads float_of_str env pub debug visits init_st))).
Proof.
  intros json_loads float_of_str env P pub debug HPl HTu HCo HPu HDb visits.
  assert (H0 : trace_ok P [] init_st).
  { exists []. split; [reflexivity|]. split; [constructor|exact I]. }
  pose proof (tok_main json_loads float_of_str env P pub debug HPl HTu HCo HPu HDb
                [] visits init_st H0) as H.
  unfold wp in H.
  destruct (main json_loads float_of_str env pub debug visits init_st) as [[a|e] s'];
    destruct H as [rest [Ht [Hf _]]]; cbn [snd]; rewrite Ht; exact Hf.
Qed.

(** X9 (main, publish_alert): without the [-z] option no alert is ever
    published, whatever the detections and however the run ends. *)
Theorem main_no_publish_without_zmq : forall json_loads float_of_str env debug visits,
  Forall (fun e => is_publish e = false)
    (trace (snd (main json_loads float_of_str env false debug visits init_st))).
Proof.
  intros json_loads float_of_str env debug visits.
  apply main_trace_ok.
  - intros [] He; try reflexivity. contradiction.
  - reflexivity.
  - reflexivity.
  - discriminate.
  - intros _. split; reflexivity.
Qed.

(** X10 (main): without the [-d] option neither the warm-up threshold nor the
    debug confirmation line is ever printed. *)
Theorem main_no_debug_without_flag : forall json_loads float_of_str env zmq visits,
  Forall (fun e => is_debug_log e = false)
    (trace (snd (main json_loads float_of_str env zmq false visits init_st))).
Proof.
  intros json_loads float_of_str env zmq visits.
  apply main_trace_ok.
  - intros [] He; try reflexivity. destruct l; try reflexivity; contradiction.
  - reflexivity.
  - reflexivity.
  - intros _ g hz bw pal ntsc source _ _ _. reflexivity.
  - discriminate.
Qed.

(** X11 (build_alert_messages, poll_monitor_for_gps): every location part of
    every published alert has a latitude in [-90, 90] and a longitude in
    [-180, 180]. *)
Theorem main_published_locations_valid :
  forall json_loads float_of_str env zmq debug visits,
  Forall location_ok_event
    (trace (snd (main json_loads float_of_str env zmq debug visits init_st))).
Proof.
  intros json_loads float_of_str env zmq debug visits.
  apply main_trace_ok.
  - intros [] He; exact I || contradiction.
  - intros; exact I.
  - intros; exact I.
  - intros _ g hz bw pal ntsc source Hg _ _. unfold build_alert_messages.
    cbn [location_ok_event]. apply Forall_app. split; [repeat constructor|].
    apply Forall_app. split; [|repeat constructor].
    destruct g as [[[lat lon] alt]|]; [|constructor].
    constructor; [exact Hg|constructor].
  - intros _. split; intros; exact I.
Qed.

(** X12 (run_confirm, main): every confirmation score that is logged or
    published is at least 0. *)
Theorem main_confirm_scores_nonneg :
  forall json_loads float_of_str env zmq debug visits,
  Forall scores_ok_event
    (trace (snd (main json_loads float_of_str env zmq debug visits init_st))).
Proof.
  intros json_loads float_of_str env zmq debug visits.
  apply main_trace_ok.
  - intros [] He; try exact I; try contradiction. destruct l; exact I || contradiction.
  - intros; exact I.
  - intros hz pal ntsc Hp Hn. split; assumption.
  - intros _ g hz bw pal ntsc source _ Hp Hn. unfold build_alert_messages.
    cbn [scores_ok_event]. apply Forall_app. split; [repeat constructor|].
    apply Forall_app. split.
    + destruct g as [[[lat lon] alt]|]; repeat constructor.
    + repeat constructor; assumption.
  - intros _. split; [intros; exact I|intros hz bw pal ntsc Hp Hn; split; assumption].
Qed.

(** ** Release of the radio at the end of main *)

Lemma wp_and : forall {A} (m : M A) Q1 Q2 E1 E2 s,
  wp m Q1 E1 s -> wp m Q2 E2 s ->
  wp m (fun a s' => Q1 a s' /\ Q2 a s') (fun e s' => E1 e s' /\ E2 e s') s.
Proof. intros A m Q1 Q2 E1 E2 s H1 H2. unfold wp in *. destruct (m s) as [[a|e] s']; auto. Qed.

Lemma wp_bind_all : forall {A B} (m : M A) (k : A -> M B) Q E s,
  (forall a s', wp (k a) Q E s') -> (forall e s', E e s') -> wp (bind m k) Q E s.
Proof.
  intros A B m k Q E s Hk HE. rewrite wp_bind. unfold wp at 1.
  destruct (m s) as [[a|e] s']; auto.
Qed.

Lemma poll_main_tb : forall jl fs env b s,
  wp (poll_monitor_for_gps jl fs env b)
     (fun _ s' => main_tb s' = main_tb s) (fun _ s' => main_tb s' = main_tb s) s.
Proof.
  intros jl fs env b s. unfold poll_monitor_for_gps.
  destruct b; cbn [negb]; wp_simpl; [|reflexivity].
  destruct (env_recv env (n_recv s)) as [| |msg]; wp_simpl; try reflexivity.
  destruct (jl msg) as [payload|]; wp_simpl; [|reflexivity].
  destruct (py_get payload "lat" JNull) as [lat|]; wp_simpl; [|reflexivity].
  destruct (py_get payload "lon" JNull) as [lon|]; wp_simpl; [|reflexivity].
  destruct (py_get payload "alt" (JNum 0)) as [alt|]; wp_simpl; [|reflexivity].
  destruct (is_valid_latlon fs lat lon) as [ok|]; wp_simpl; [|reflexivity].
  destruct ok; wp_simpl; [|reflexivity].
  destruct (py_float fs lat); wp_simpl; [|reflexivity].
  destruct (py_float fs lon); wp_simpl; [|reflexivity].
  destruct (py_float fs alt); wp_simpl; reflexivity.
Qed.

Ltac inv_back_tb :=
  match goal with
  | |- loop_inv _ (set_tb_st _ _) => apply loop_inv_set_tb; inv_back_tb
  | |- loop_inv _ (bump_map _) => apply loop_inv_bump_map; inv_back_tb
  | |- loop_inv false (set_trace (_ ++ [EStop])%list _) =>
      eapply loop_inv_stop; inv_back_tb
  | |- loop_inv true (set_trace (_ ++ [EConstruct _])%list _) =>
      apply loop_inv_construct; inv_back_tb
  | |- loop_inv _ (set_trace (_ ++ [EPublish _])%list _) =>
      apply loop_inv_publish;
      [inv_back_tb | first [apply energy_ok_confirm_alert | apply energy_ok_energy_alert]]
  | |- loop_inv _ (set_trace (_ ++ [ELog (LogConfirm _ _ _)])%list _) =>
      apply loop_inv_log_confirm; [inv_back_tb | assumption]
  | |- loop_inv _ (set_trace (_ ++ [_])%list _) =>
      apply loop_inv_neutral; [inv_back_tb | auto with neutral_ev]
  | _ => cbv beta in *; eassumption
  end.

Ltac bind_all :=
  repeat (apply wp_bind_all; [intros ? ?|intros; exact I]).

Lemma confirm_and_reacquire_tb : forall jl fs env thr pub debug hz bw s,
  wp (confirm_and_reacquire jl fs env thr pub debug hz bw)
     (fun _ s' => main_tb s' = true) (fun _ _ => True) s.
Proof.
  intros. unfold confirm_and_reacquire. bind_all. reflexivity.
Qed.

Lemma scan_channel_tb : forall jl fs env thr pub debug mon mhz s,
  main_tb s = true ->
  wp (scan_channel jl fs env thr pub debug mon mhz)
     (fun _ s' => main_tb s' = true) (fun _ _ => True) s.
Proof.
  intros jl fs env thr pub debug mon mhz s H. unfold scan_channel. cbv zeta.
  rewrite wp_bind.
  eapply wp_weaken; [apply poll_main_tb | | intros; exact I].
  intros [] s1 H1. rewrite H in H1. wp_simpl.
  destruct (parse_rf_map _ _) as [|c0 rest]; wp_simpl; [exact H1|].
  destruct (py_max_by_bw _) as [c|e]; wp_simpl; [|exact I].
  destruct pub; [unfold publish_alert|]; wp_simpl; apply confirm_and_reacquire_tb.
Qed.

Lemma scan_loop_tb : forall jl fs env thr pub debug mon fuel k s,
  main_tb s = true ->
  wp (scan_loop jl fs env thr pub debug mon fuel k)
     (fun _ s' => main_tb s' = true) (fun _ _ => True) s.
Proof.
  intros jl fs env thr pub debug mon fuel. induction fuel as [|fuel IH]; intros k s H.
  - exact H.
  - rewrite scan_loop_S, wp_bind.
    eapply wp_weaken; [apply scan_channel_tb; exact H | | auto].
    intros [] s1 H1. apply IH. exact H1.
Qed.

Lemma main_release_wp : forall jl fs env zmq debug visits s,
  loop_inv false s ->
  wp (main jl fs env zmq debug visits)
     (fun _ s' => loop_inv false s' /\ exists t, trace s' = (t ++ [EStop])%list)
     (fun _ _ => True) s.
Proof.
  intros jl fs env zmq debug visits s H. unfold main. cbv zeta. rewrite wp_bind.
  eapply wp_weaken;
    [apply InspectorScan_spec; exact H | | intros; exact I].
  intros o s1 H1. wp_simpl.
  assert (Htb : forall o s',
    wp (tb_start o) (fun _ s'' => main_tb s'' = main_tb s') (fun _ _ => True) s')
    by (intros [] s'; unfold tb_start; wp_simpl; first [reflexivity | exact I]).
  eapply wp_weaken;
    [apply wp_and; [apply tb_start_spec; apply loop_inv_set_tb; exact H1 | apply Htb]
    | | intros; exact I].
  intros [] s2 [H2 Htb2]. cbv beta. rewrite wp_bind.
  eapply wp_weaken with
    (Q := fun _ s3 => loop_inv true s3 /\ main_tb s3 = true) (E := fun _ _ => True).
  - destruct (_ && _)%bool; wp_simpl; [|split; [exact H2|exact Htb2]].
    eapply wp_weaken; [apply warmup_threshold_inv; exact H2 | | intros; exact I].
    intros t s3 H3. cbv beta.
    destruct debug; wp_simpl; unfold start_tb_with_retry;
      (eapply wp_weaken;
       [ apply retry_loop_spec; inv_back_tb
       | intros ? ? ?; cbv beta; wp_simpl; split; [inv_back_tb|reflexivity]
       | intros; exact I ]);
      first [apply neutral_sleep | apply neutral_log; exact I].
  - intros thr s3 [H3 Htb3]. rewrite wp_try_finally.
    pose proof (wp_and _ _ _ _ _ s3
                  (scan_loop_spec jl fs env thr zmq debug (env_mon_sub env) visits 0 s3 H3)
                  (scan_loop_tb jl fs env thr zmq debug (env_mon_sub env) visits 0 s3 Htb3))
      as Hl.
    eapply wp_weaken; [exact Hl| |].
    + intros [] s4 [H4 Htb4]. wp_simpl. rewrite Htb4. wp_simpl.
      split; [eapply loop_inv_stop; exact H4|].
      eexists. reflexivity.
    + intros e s4 _. wp_simpl. destruct (main_tb s4); wp_simpl; exact I.
  - intros; exact I.
Qed.

(** X13 (main, finally clause): when the user's interrupt arrives between
    two channel visits of the scan loop (the run ends normally in the model),
    the last action is [tb.stop(); tb.wait()] and the radio is released: no
    pipeline holds it and none is running. *)
Theorem main_interrupt_releases_radio : forall jl fs env zmq debug visits,
  fst (main jl fs env zmq debug visits init_st) = Ok tt ->
  hw_run (trace (snd (main jl fs env zmq debug visits init_st))) = Some (mkHw false false) /\
  exists t, trace (snd (main jl fs env zmq debug visits init_st)) = (t ++ [EStop])%list.
Proof.
  intros jl fs env zmq debug visits Hok.
  pose proof (main_release_wp jl fs env zmq debug visits init_st init_loop_inv) as H.
  unfold wp in H.
  destruct (main jl fs env zmq debug visits init_st) as [[a|e] s'];
    [|discriminate]. cbn [snd]. destruct H as [[Hhw _] Ht]. auto.
Qed.

Lemma main_interrupt_releases_radio_witness :
  fst (main json_subset float_subset env_exit1 true false 2 init_st) = Ok tt /\
  hw_run (trace (snd (main json_subset float_subset env_exit1 true false 2 init_st))) =
    Some (mkHw false false) /\
  exists t, trace (snd (main json_subset float_subset env_exit1 true false 2 init_st)) =
    (t ++ [EStop])%list.
Proof.
  assert (H : fst (main json_subset float_subset env_exit1 true false 2 init_st) = Ok tt)
    by (vm_compute; reflexivity).
  split; [exact H|].
  exact (main_interrupt_releases_radio json_subset float_subset env_exit1 true false 2 H).
Defined.


(** ** Order of the tuning requests *)










(** ** The reopen error ends the run *)

Lemma retry_loop_main_tb : forall env thr left attempt s,
  wp (retry_loop env thr attempt left)
     (fun _ s' => main_tb s' = main_tb s) (fun _ s' => main_tb s' = main_tb s) s.
Proof.
  intros env thr left. induction left as [|left IH]; intros attempt s; simpl retry_loop.
  { wp_simpl. reflexivity. }
  rewrite wp_bind. unfold InspectorScan. wp_simpl.
  destruct (env_open env (n_open s)) as [|h]; wp_simpl; [reflexivity|].
  rewrite wp_try_catch. unfold tb_start. destruct h; wp_simpl; try reflexivity.
  eapply wp_weaken; [apply IH | |]; intros ? ? ->; reflexivity.
Qed.

Lemma start_tb_with_retry_exhausted : forall env thr s,
  (forall i, (i < REOPEN_RETRIES)%nat ->
     env_open env (n_open s + i) = OConstructed StartRuntimeError) ->
  exists s',
    start_tb_with_retry env thr s =
      (Exc (RuntimeError "failed to reopen SDR after retries"), s') /\
    trace s' = (trace s ++ failures thr 1 REOPEN_RETRIES)%list /\
    n_open s' = (n_open s + REOPEN_RETRIES)%nat /\ main_tb s' = main_tb s.
Proof.
  intros env thr s H.
  destruct (retry_loop_failures env thr REOPEN_RETRIES 1 0 s H) as [s' [E1 [E2 E3]]].
  rewrite Nat.add_0_r in E1.
  assert (Hs : start_tb_with_retry env thr s =
               (Exc (RuntimeError "failed to reopen SDR after retries"), s'))
    by (unfold start_tb_with_retry; rewrite E1; reflexivity).
  pose proof (retry_loop_main_tb env thr REOPEN_RETRIES 1 s) as Ht.
  unfold wp in Ht. fold (start_tb_with_retry env thr) in Ht. rewrite Hs in Ht.
  exists s'. auto.
Qed.

Lemma poll_open_tb : forall jl fs env b s,
  wp (poll_monitor_for_gps jl fs env b)
     (fun _ s' => n_open s' = n_open s /\ main_tb s' = main_tb s)
     (fun _ s' => n_open s' = n_open s /\ main_tb s' = main_tb s) s.
Proof.
  intros jl fs env b s. unfold poll_monitor_for_gps.
  destruct b; cbn [negb]; wp_simpl; [|auto].
  destruct (env_recv env (n_recv s)) as [| |msg]; wp_simpl; try (split; reflexivity).
  destruct (jl msg) as [payload|]; wp_simpl; [|split; reflexivity].
  destruct (py_get payload "lat" JNull) as [lat|]; wp_simpl; [|split; reflexivity].
  destruct (py_get payload "lon" JNull) as [lon|]; wp_simpl; [|split; reflexivity].
  destruct (py_get payload "alt" (JNum 0)) as [alt|]; wp_simpl; [|split; reflexivity].
  destruct (is_valid_latlon fs lat lon) as [ok|]; wp_simpl; [|split; reflexivity].
  destruct ok; wp_simpl; [|split; reflexivity].
  destruct (py_float fs lat); wp_simpl; [|split; reflexivity].
  destruct (py_float fs lon); wp_simpl; [|split; reflexivity].
  destruct (py_float fs alt); wp_simpl; split; reflexivity.
Qed.

Lemma run_confirm_open_tb : forall jl fs env hz s,
  wp (run_confirm jl fs env hz)
     (fun _ s' => n_open s' = n_open s /\ main_tb s' = main_tb s)
     (fun _ s' => n_open s' = n_open s /\ main_tb s' = main_tb s) s.
Proof.
  intros jl fs env hz s. unfold run_confirm, _disable_confirm, scores_of.
  repeat (progress wp_simpl ||
          match goal with |- context [match ?x with _ => _ end] => destruct x end).
  all: split; reflexivity.
Qed.

Lemma scan_channel_reopen_fails : forall jl fs env thr pub debug mon mhz s,
  (forall i, (n_open s <= i)%nat -> env_open env i = OConstructed StartRuntimeError) ->
  wp (scan_channel jl fs env thr pub debug mon mhz)
     (fun _ s' => n_open s' = n_open s) (reopen_raise thr (n_open s)) s.
Proof.
  intros jl fs env thr pub debug mon mhz s HF. unfold scan_channel. cbv zeta.
  rewrite wp_bind.
  eapply wp_weaken; [apply poll_open_tb | | intros e s1 [H1 _]; left; exact H1].
  intros [] s1 [H1 _]. wp_simpl.
  destruct (parse_rf_map _ _) as [|c0 rest]; wp_simpl; [exact H1|].
  destruct (py_max_by_bw _) as [c|e]; wp_simpl; [|left; exact H1].
  assert (Hc : forall s2, n_open s2 = n_open s ->
    wp (confirm_and_reacquire jl fs env thr pub debug (fst c) (snd c))
       (fun _ s' => n_open s' = n_open s) (reopen_raise thr (n_open s)) s2).
  { intros s2 H2. unfold confirm_and_reacquire. wp_simpl.
    eapply wp_weaken; [apply run_confirm_open_tb | |
                       intros e s3 [H3 _]; left; cbn in H3; rewrite H3; exact H2].
    intros r s3 [H3 Htb3]. cbn in H3, Htb3.
    assert (Hr : forall s4, n_open s4 = n_open s -> main_tb s4 = false ->
      wp (start_tb_with_retry env thr)
         (fun _ => wp (set_tb true) (fun _ s' => n_open s' = n_open s)
                                    (reopen_raise thr (n_open s)))
         (reopen_raise thr (n_open s)) s4).
    { intros s4 H4 Htb4.
      destruct (start_tb_with_retry_exhausted env thr s4) as [s5 [E1 [E2 [E3 E4]]]].
      { intros i Hi. apply HF. lia. }
      unfold wp at 1. rewrite E1. right.
      split; [reflexivity|]. split; [rewrite E4; exact Htb4|].
      split; [rewrite E3, H4; reflexivity|]. exists (trace s4). exact E2. }
    destruct r as [[pal|] [ntsc|]]; wp_simpl;
      try (apply Hr; [cbn; rewrite H3; exact H2 | cbn; exact Htb3]).
    assert (Hpb : pub = true \/ pub = false) by (destruct pub; auto).
    destruct Hpb as [Hpb|Hpb]; rewrite Hpb; [unfold publish_alert|]; wp_simpl;
      (destruct debug; wp_simpl; (apply Hr; [cbn; rewrite H3; exact H2 | cbn; exact Htb3])). }
  destruct pub; [unfold publish_alert|]; wp_simpl; apply Hc; exact H1.
Qed.

Lemma scan_loop_reopen_fails : forall jl fs env thr pub debug mon fuel k s,
  (forall i, (n_open s <= i)%nat -> env_open env i = OConstructed StartRuntimeError) ->
  wp (scan_loop jl fs env thr pub debug mon fuel k)
     (fun _ s' => n_open s' = n_open s) (reopen_raise thr (n_open s)) s.
Proof.
  intros jl fs env thr pub debug mon fuel. induction fuel as [|fuel IH]; intros k s HF.
  - reflexivity.
  - cbn [scan_loop]. rewrite wp_bind.
    eapply wp_weaken; [apply scan_channel_reopen_fails; exact HF | | exact (fun _ _ H => H)].
    intros [] s1 H1.
    eapply wp_weaken; [apply IH; rewrite H1; exact HF | |].
    + intros [] s2 H2. rewrite H2. exact H1.
    + intros e s2 H2. unfold reopen_raise in *. rewrite H1 in H2. exact H2.
Qed.

Lemma main_warmup_reopen_fails_wp : forall jl fs env zmq debug visits,
  env_open env 0 = OConstructed StartOk ->
  (forall i, (1 <= i)%nat -> (i <= REOPEN_RETRIES)%nat ->
     env_open env i = OConstructed StartRuntimeError) ->
  wp (main jl fs env zmq debug visits) (fun _ _ => False)
     (fun e s' => e = RuntimeError "failed to reopen SDR after retries" /\
        n_open s' = S REOPEN_RETRIES /\
        exists thr t, trace s' = (t ++ failures thr 1 REOPEN_RETRIES)%list) init_st.
Proof.
  intros jl fs env zmq debug visits H0 HF. unfold main. cbv zeta.
  unfold InspectorScan. wp_simpl. change (n_open init_st) with 0%nat. rewrite H0.
  wp_simpl. unfold tb_start. wp_simpl.
  replace (Nat.ltb 0 WARMUP_SWEEPS && negb AUTO_THRESHOLD)%bool with true
    by reflexivity.
  rewrite wp_bind. unfold wp at 1.
  match goal with |- context [warmup_threshold env ?st] =>
    destruct (warmup_threshold_state env st) as [thr Hw]; rewrite Hw end.
  fold (@wp Q).
  destruct debug; wp_simpl;
    (unfold wp at 1;
     match goal with |- context [start_tb_with_retry env thr ?st] =>
       destruct (start_tb_with_retry_exhausted env thr st) as [s5 [E1 [E2 [E3 _]]]];
       [intros i Hi; apply HF; cbn; lia|]; rewrite E1 end;
     split; [reflexivity|]; split; [rewrite E3; reflexivity|];
     exists thr; eexists; exact E2).
Qed.

Lemma main_scan_reopen_fails_wp : forall jl fs env zmq debug visits,
  env_open env 0 = OConstructed StartOk ->
  env_open env 1 = OConstructed StartOk ->
  (forall i, (2 <= i)%nat -> env_open env i = OConstructed StartRuntimeError) ->
  wp (main jl fs env zmq debug visits) (fun _ s' => n_open s' = 2%nat)
     (fun e s' => n_open s' = 2%nat \/
        (e = RuntimeError "failed to reopen SDR after retries" /\
         n_open s' = (2 + REOPEN_RETRIES)%nat /\
         exists thr t, trace s' = (t ++ failures thr 1 REOPEN_RETRIES)%list)) init_st.
Proof.
  intros jl fs env zmq debug visits H0 H1 HF. unfold main. cbv zeta.
  unfold InspectorScan. wp_simpl. change (n_open init_st) with 0%nat. rewrite H0.
  wp_simpl. unfold tb_start. wp_simpl.
  replace (Nat.ltb 0 WARMUP_SWEEPS && negb AUTO_THRESHOLD)%bool with true
    by reflexivity.
  rewrite wp_bind. unfold wp at 1.
  match goal with |- context [warmup_threshold env ?st] =>
    destruct (warmup_threshold_state env st) as [thr Hw]; rewrite Hw end.
  fold (@wp Q).
  assert (Hscan : forall s4, n_open s4 = 2%nat ->
    wp (try_finally (scan_loop jl fs env thr zmq debug (env_mon_sub env) visits 0)
                    (b <- get_tb ;; if b then emit EStop else ret tt))
       (fun _ s' => n_open s' = 2%nat)
       (fun e s' => n_open s' = 2%nat \/
          (e = RuntimeError "failed to reopen SDR after retries" /\
           n_open s' = (2 + REOPEN_RETRIES)%nat /\
           exists thr t, trace s' = (t ++ failures thr 1 REOPEN_RETRIES)%list)) s4).
  { intros s4 H4. rewrite wp_try_finally.
    eapply wp_weaken; [apply scan_loop_reopen_fails; intros i Hi; apply HF; lia | |].
    - intros [] s6 H6. wp_simpl. rewrite <- H4.
      destruct (main_tb s6); wp_simpl; exact H6.
    - intros e s6 [H6 | [He [Htb [Hn [t Ht]]]]]; wp_simpl.
      + rewrite <- H4. destruct (main_tb s6); wp_simpl; left; exact H6.
      + rewrite Htb. wp_simpl. right. split; [exact He|].
        split; [rewrite Hn, H4; reflexivity|]. exists thr, t. exact Ht. }
  destruct debug; wp_simpl;
    (unfold wp at 1; unfold start_tb_with_retry, REOPEN_RETRIES at 1;
     rewrite retry_loop_step_ok by (cbn; exact H1);
     fold (@wp Q); wp_simpl; apply Hscan; reflexivity).
Qed.
(** C3 (amended): [start_tb_with_retry] when the first [k] attempts
    ([k <= 5]) fail in [start()] with a RuntimeError.  Each failure leaves the
    events [fail_events]: construction, failed start, stop, warning, a 2 s
    sleep.  After five such failures it raises "failed to reopen SDR after
    retries" (five opens, five sleeps, the last one included).  Before that,
    the next attempt decides: success returns the started pipeline, while a
    construction error or an error of [start()] other than RuntimeError
    propagates at once, without retry.  An exception raised during a channel
    visit ends the scan loop with that exception, and a RuntimeError from the
    first [start()] in [main] ends [main] after one open.  Nothing catches
    the reopen error: when the reopen after the warm-up fails five times,
    [main] ends with it after six opens; and when the radio opens twice
    (first open and reopen after the warm-up) and every later open fails,
    [main] either opens nothing more or ends with the reopen error raised by
    the reopen after a confirmation, five opens later. *)
Theorem start_tb_with_retry_bounded : forall env thr s k,
  (k <= REOPEN_RETRIES)%nat ->
  (forall i, (i < k)%nat ->
     env_open env (n_open s + i) = OConstructed StartRuntimeError) ->
  (k = REOPEN_RETRIES ->
     fst (start_tb_with_retry env thr s) =
       Exc (RuntimeError "failed to reopen SDR after retries") /\
     trace (snd (start_tb_with_retry env thr s)) = (trace s ++ failures thr 1 k)%list /\
     n_open (snd (start_tb_with_retry env thr s)) = (n_open s + k)%nat) /\
  ((k < REOPEN_RETRIES)%nat ->
     match env_open env (n_open s + k) with
     | OConstructError =>
         fst (start_tb_with_retry env thr s) = Exc HwError /\
         trace (snd (start_tb_with_retry env thr s)) = (trace s ++ failures thr 1 k)%list /\
         n_open (snd (start_tb_with_retry env thr s)) = (n_open s + k + 1)%nat
     | OConstructed StartOk =>
         fst (start_tb_with_retry env thr s) = Ok StartOk /\
         trace (snd (start_tb_with_retry env thr s)) =
           (trace s ++ failures thr 1 k ++ [EConstruct thr; EStart])%list /\
         n_open (snd (start_tb_with_retry env thr s)) = (n_open s + k + 1)%nat
     | OConstructed StartError =>
         fst (start_tb_with_retry env thr s) = Exc HwError /\
         trace (snd (start_tb_with_retry env thr s)) =
           (trace s ++ failures thr 1 k ++ [EConstruct thr; EStartFail])%list /\
         n_open (snd (start_tb_with_retry env thr s)) = (n_open s + k + 1)%nat
     | OConstructed StartRuntimeError => True
     end) /\
  (forall json_loads float_of_str pub debug mon fuel j s0 e s1,
     scan_channel json_loads float_of_str env thr pub debug mon
       (nth (j mod length ALL_CENTERS_MHZ) ALL_CENTERS_MHZ 0%Z) s0 = (Exc e, s1) ->
     scan_loop json_loads float_of_str env thr pub debug mon (S fuel) j s0 = (Exc e, s1)) /\
  (forall json_loads float_of_str zmq debug visits,
     env_open env 0 = OConstructed StartRuntimeError ->
     fst (main json_loads float_of_str env zmq debug visits init_st) =
       Exc (RuntimeError "start") /\
     n_open (snd (main json_loads float_of_str env zmq debug visits init_st)) = 1%nat) /\
  (forall json_loads float_of_str zmq debug visits,
     env_open env 0 = OConstructed StartOk ->
     (forall i, (1 <= i)%nat -> (i <= REOPEN_RETRIES)%nat ->
        env_open env i = OConstructed StartRuntimeError) ->
     fst (main json_loads float_of_str env zmq debug visits init_st) =
       Exc (RuntimeError "failed to reopen SDR after retries") /\
     n_open (snd (main json_loads float_of_str env zmq debug visits init_st)) =
       S REOPEN_RETRIES /\
     exists thr' t, trace (snd (main json_loads float_of_str env zmq debug visits init_st)) =
       (t ++ failures thr' 1 REOPEN_RETRIES)%list) /\
  (forall json_loads float_of_str zmq debug visits,
     env_open env 0 = OConstructed StartOk ->
     env_open env 1 = OConstructed StartOk ->
     (forall i, (2 <= i)%nat -> env_open env i = OConstructed StartRuntimeError) ->
     n_open (snd (main json_loads float_of_str env zmq debug visits init_st)) = 2%nat \/
     (fst (main json_loads float_of_str env zmq debug visits init_st) =
        Exc (RuntimeError "failed to reopen SDR after retries") /\
      n_open (snd (main json_loads float_of_str env zmq debug visits init_st)) =
        (2 + REOPEN_RETRIES)%nat /\
      exists thr' t, trace (snd (main json_loads float_of_str env zmq debug visits init_st)) =
        (t ++ failures thr' 1 REOPEN_RETRIES)%list)).
Proof.
  intros env thr s k Hk H.
  destruct (retry_loop_failures env thr k 1 (REOPEN_RETRIES - k) s H)
    as [s' [E1 [E2 E3]]].
  assert (Hs : start_tb_with_retry env thr s =
               retry_loop env thr (1 + k) (REOPEN_RETRIES - k) s').
  { unfold start_tb_with_retry. rewrite <- E1. f_equal. lia. }
  split; [|split; [|split; [|split; [|split]]]].
  - intros Hk5. rewrite Hs, Hk5, Nat.sub_diag. cbn [retry_loop raise fst snd].
    rewrite <- Hk5. auto.
  - intros Hlt. rewrite Hs.
    destruct (REOPEN_RETRIES - k)%nat as [|left] eqn:Hd; [lia|].
    rewrite <- E3.
    destruct (env_open env (n_open s')) as [|[| |]] eqn:Ho.
    + rewrite retry_loop_step_construct_error by exact Ho.
      cbn [fst snd n_open bump_open]. rewrite E3. split; [reflexivity|split; [exact E2|lia]].
    + rewrite retry_loop_step_ok by exact Ho.
      cbn [fst snd n_open trace set_trace bump_open]. rewrite E3, E2, app_assoc.
      split; [reflexivity|split; [reflexivity|lia]].
    + exact I.
    + rewrite retry_loop_step_error by exact Ho.
      cbn [fst snd n_open trace set_trace bump_open]. rewrite E3, E2, app_assoc.
      split; [reflexivity|split; [reflexivity|lia]].
  - intros. apply scan_loop_raise. assumption.
  - intros. apply main_first_open. assumption.
  - intros jl fs zmq debug visits H0 HF.
    pose proof (main_warmup_reopen_fails_wp jl fs env zmq debug visits H0 HF) as W.
    unfold wp in W.
    destruct (main jl fs env zmq debug visits init_st) as [[a|e] s9];
      [contradiction|]. destruct W as [-> [Hn Ht]]. auto.
  - intros jl fs zmq debug visits H0 H1 HF.
    pose proof (main_scan_reopen_fails_wp jl fs env zmq debug visits H0 H1 HF) as W.
    unfold wp in W.
    destruct (main jl fs env zmq debug visits init_st) as [[a|e] s9];
      [left; exact W|]. destruct W as [W | [-> [Hn Ht]]]; [left; exact W|].
    right. auto.
Qed.

Lemma start_tb_with_retry_bounded_witness :
  (2 <= REOPEN_RETRIES)%nat /\
  fst (start_tb_with_retry env_retry2 THRESHOLD_DB init_st) = Ok StartOk /\
  trace (snd (start_tb_with_retry env_retry2 THRESHOLD_DB init_st)) =
    (trace init_st ++ failures THRESHOLD_DB 1 2 ++ [EConstruct THRESHOLD_DB; EStart])%list /\
  n_open (snd (start_tb_with_retry env_retry2 THRESHOLD_DB init_st)) =
    (n_open init_st + 2 + 1)%nat /\
  fst (main json_subset float_subset env_reopen_fails true false 3 init_st) =
    Exc (RuntimeError "failed to reopen SDR after retries") /\
  fst (main json_subset float_subset env_confirm_reopen_fails true false 3 init_st) =
    Exc (RuntimeError "failed to reopen SDR after retries").
Proof.
  assert (Hle : (2 <= REOPEN_RETRIES)%nat) by (unfold REOPEN_RETRIES; lia).
  assert (Hlt : (2 < REOPEN_RETRIES)%nat) by (unfold REOPEN_RETRIES; lia).
  assert (Hpre : forall i, (i < 2)%nat ->
            env_open env_retry2 (n_open init_st + i) = OConstructed StartRuntimeError).
  { intros i Hi. destruct i as [|[|i]]; [reflexivity|reflexivity|lia]. }
  assert (H0 : (0 <= REOPEN_RETRIES)%nat) by lia.
  assert (Hnil : forall env, forall i, (i < 0)%nat ->
            env_open env (n_open init_st + i) = OConstructed StartRuntimeError)
    by (intros env i Hi; lia).
  assert (Hw : fst (start_tb_with_retry env_retry2 THRESHOLD_DB init_st) = Ok StartOk /\
    trace (snd (start_tb_with_retry env_retry2 THRESHOLD_DB init_st)) =
      (trace init_st ++ failures THRESHOLD_DB 1 2 ++ [EConstruct THRESHOLD_DB; EStart])%list /\
    n_open (snd (start_tb_with_retry env_retry2 THRESHOLD_DB init_st)) =
      (n_open init_st + 2 + 1)%nat)
    by exact (proj1 (proj2 (start_tb_with_retry_bounded env_retry2 THRESHOLD_DB init_st 2
                              Hle Hpre)) Hlt).
  destruct Hw as [W1 [W2 W3]].
  split; [exact Hle|]. split; [exact W1|]. split; [exact W2|]. split; [exact W3|].
  split.
  - apply (proj1 (proj2 (proj2 (proj2 (proj2
             (start_tb_with_retry_bounded env_reopen_fails THRESHOLD_DB init_st 0
                H0 (Hnil env_reopen_fails)))))));
      [reflexivity | intros i Hi _; destruct i; [lia | reflexivity]].
  - destruct (proj2 (proj2 (proj2 (proj2 (proj2
             (start_tb_with_retry_bounded env_confirm_reopen_fails THRESHOLD_DB init_st 0
                H0 (Hnil env_confirm_reopen_fails))))))
               json_subset float_subset true false 3%nat) as [Hn | [He _]];
      [reflexivity | reflexivity | intros i Hi; destruct i as [|[|i]]; [lia|lia|reflexivity]
      | | exact He].
    exfalso. vm_compute in Hn. discriminate Hn.
Defined.

